(** * Vote tracker: the ingestion-and-persistence pipeline of [server.py]

    A shallow embedding of the poller ([fetch_poll_data] and the session
    functions it relies on), of the two sinks ([write_result_file],
    [write_google_sheet] and the background writer), of the day-rollover
    tracker and of the velocity computation of [api_current], followed by
    the properties the specification states about them.

    Conventions of the model.
    - Text is a [string] of ASCII characters; whitespace is what Python's
      [str.isspace] accepts among them.
    - An instant is an integer number of microseconds since the epoch
      (the resolution of [datetime]); [time.time()] is that number divided
      by 10^6.  The only floating-point results the service returns, the
      velocities, are computed on binary64 floats.
    - Every interaction with the outside (HTTP request, spreadsheet call,
      file operation, sleep) is appended to a trace; a [World] gives the
      outcome of the interaction at each position of the trace and the
      reading of the clock there.
    - Python exceptions are values of [exn]; [try]/[except] is [try_].
    - The module-level names of the program are the fields of [State];
      the code of one function runs without interleaving (the program
      takes [lock] around its in-memory updates).
    - Console output and cell styling are left out. *)

From Stdlib Require Import ZArith String Ascii List Floats Sorted Permutation Lia.
From stdpp Require Import gmap strings list.

Set Warnings "-inexact-float".
Local Open Scope string_scope.
Local Open Scope list_scope.
Local Open Scope Z_scope.

(** ** Text: the [str] methods the program calls *)

Module Text.

Definition code (c : ascii) : nat := nat_of_ascii c.

(** [str.isspace] on one ASCII character: TAB..CR, FS..US and the space. *)
Definition py_isspace (c : ascii) : bool :=
  ((9 <=? code c) && (code c <=? 13))%nat || ((28 <=? code c) && (code c <=? 32))%nat.

Definition is_digit (c : ascii) : bool :=
  ((48 <=? code c) && (code c <=? 57))%nat.

Definition digit_value (c : ascii) : option Z :=
  if is_digit c then Some (Z.of_nat (code c - 48)) else None.

Fixpoint lstrip (s : string) : string :=
  match s with
  | String c s' => if py_isspace c then lstrip s' else s
  | EmptyString => EmptyString
  end.

Fixpoint rstrip (s : string) : string :=
  match s with
  | EmptyString => EmptyString
  | String c s' =>
      match rstrip s' with
      | EmptyString => if py_isspace c then EmptyString else String c EmptyString
      | r => String c r
      end
  end.

(** [s.strip()] *)
Definition strip (s : string) : string := rstrip (lstrip s).

(** [s.count(c)] for a one-character [c] *)
Fixpoint count (c : ascii) (s : string) : nat :=
  match s with
  | EmptyString => O
  | String d s' => if Ascii.eqb c d then S (count c s') else count c s'
  end.

(** [s.replace(c, '')] for a one-character [c] *)
Fixpoint remove (c : ascii) (s : string) : string :=
  match s with
  | EmptyString => EmptyString
  | String d s' => if Ascii.eqb c d then remove c s' else String d (remove c s')
  end.

(** [c in s] for a one-character [c] *)
Definition has_char (c : ascii) (s : string) : bool := negb (Nat.eqb (count c s) 0).

(** [needle in hay] *)
Fixpoint contains (needle hay : string) : bool :=
  String.prefix needle hay ||
  match hay with
  | EmptyString => false
  | String _ hay' => contains needle hay'
  end.

(** Every character of [s] satisfies [p]. *)
Fixpoint every (p : ascii → bool) (s : string) : bool :=
  match s with
  | EmptyString => true
  | String c s' => p c && every p s'
  end.

Definition all_digits (s : string) : bool := every is_digit s.

(** [s.isdigit()]: non-empty and digits only *)
Definition isdigit (s : string) : bool :=
  match s with EmptyString => false | _ => all_digits s end.

(** Truth value of a string: [bool(s)] *)
Definition nonempty (s : string) : bool :=
  match s with EmptyString => false | _ => true end.

(** The digits of [int(...)]: decimal digits, single underscores allowed
    between two digits.  [prev] tells whether the last character read was
    a digit. *)
Fixpoint int_digits (acc : Z) (prev : bool) (s : string) : option Z :=
  match s with
  | EmptyString => if prev then Some acc else None
  | String c s' =>
      match digit_value c with
      | Some d => int_digits (10 * acc + d) true s'
      | None => if Ascii.eqb c "_" && prev then int_digits acc false s' else None
      end
  end.

(** A decimal integer literal, blanks around it and a sign before it
    allowed. *)
Definition int_literal (s : string) : option Z :=
  match strip s with
  | EmptyString => None
  | String c r =>
      if Ascii.eqb c "+" then int_digits 0 false r
      else if Ascii.eqb c "-" then Z.opp <$> int_digits 0 false r
      else int_digits 0 false (String c r)
  end.

(** The number of digits in a text. *)
Fixpoint digit_count (s : string) : nat :=
  match s with
  | EmptyString => O
  | String c s' => if is_digit c then S (digit_count s') else digit_count s'
  end.

(** [sys.get_int_max_str_digits()]: the interpreter converts no text of
    more digits to an integer.  The program leaves the default. *)
Definition int_max_str_digits : nat := 4300.

(** [int(s)] in base ten; [None] stands for [ValueError]. *)
Definition py_int (s : string) : option Z :=
  if (int_max_str_digits <? digit_count s)%nat then None else int_literal s.

(** [str(n)] for an integer *)
Fixpoint digits_of (fuel : nat) (n : Z) (acc : string) : string :=
  match fuel with
  | O => acc
  | S fuel' =>
      let acc' := String (ascii_of_nat (48 + Z.to_nat (n mod 10))) acc in
      if n <? 10 then acc' else digits_of fuel' (n / 10) acc'
  end.

Definition str_nonneg (n : Z) : string :=
  digits_of (S (Z.to_nat (Z.log2 n))) n EmptyString.

Definition py_str (n : Z) : string :=
  if n <? 0 then String "-" (str_nonneg (- n)) else str_nonneg n.

(** [%02d] and [%04d] for a number that is not negative *)
Definition pad2 (n : Z) : string :=
  if n <? 10 then String "0" (str_nonneg n) else str_nonneg n.

Definition pad4 (n : Z) : string :=
  if n <? 10 then "000" +:+ str_nonneg n
  else if n <? 100 then "00" +:+ str_nonneg n
  else if n <? 1000 then "0" +:+ str_nonneg n
  else str_nonneg n.

End Text.

(** ** Calendar: [datetime] in a fixed-offset zone *)

Module Calendar.

(** Offsets of the two zones, in hours: [VN_TZ] and [KST_TZ]. *)
Definition VN_TZ : Z := 7.
Definition KST_TZ : Z := 9.

(** Day number (days since 1970-01-01) of a proleptic Gregorian date. *)
Definition days_from_civil (y m d : Z) : Z :=
  let y' := if m <=? 2 then y - 1 else y in
  let era := y' / 400 in
  let yoe := y' - era * 400 in
  let mp := if 2 <? m then m - 3 else m + 9 in
  let doy := (153 * mp + 2) / 5 + d - 1 in
  let doe := yoe * 365 + yoe / 4 - yoe / 100 + doy in
  era * 146097 + doe - 719468.

(** Date of a day number. *)
Definition civil_from_days (z : Z) : Z * Z * Z :=
  let z' := z + 719468 in
  let era := z' / 146097 in
  let doe := z' - era * 146097 in
  let yoe := (doe - doe / 1460 + doe / 36524 - doe / 146096) / 365 in
  let doy := doe - (365 * yoe + yoe / 4 - yoe / 100) in
  let mp := (5 * doy + 2) / 153 in
  let d := doy - (153 * mp + 2) / 5 + 1 in
  let m := if mp <? 10 then mp + 3 else mp - 9 in
  let y := yoe + era * 400 in
  (if m <=? 2 then y + 1 else y, m, d).

Definition is_leap (y : Z) : bool :=
  ((y mod 4 =? 0) && negb (y mod 100 =? 0)) || (y mod 400 =? 0).

Definition days_in_month (y m : Z) : Z :=
  if m =? 2 then (if is_leap y then 29 else 28)
  else if (m =? 4) || (m =? 6) || (m =? 9) || (m =? 11) then 30 else 31.

(** Seconds since the epoch of a wall-clock reading in the zone [tz]. *)
Definition local_seconds (tz us : Z) : Z := us / 1000000 + tz * 3600.

(** [strftime("%Y-%m-%d")] of the civil date of a count of seconds.  The
    year is written with four digits; for a year before 1000 the C library
    of some platforms writes fewer. *)
Definition date_of_seconds (s : Z) : string :=
  let '(y, m, d) := civil_from_days (s / 86400) in
  Text.pad4 y +:+ "-" +:+ Text.pad2 m +:+ "-" +:+ Text.pad2 d.

(** [strftime("%H:%M:%S")] *)
Definition time_of_seconds (s : Z) : string :=
  let sod := s mod 86400 in
  Text.pad2 (sod / 3600) +:+ ":" +:+ Text.pad2 (sod mod 3600 / 60) +:+ ":" +:+ Text.pad2 (sod mod 60).

(** [datetime(us, tz).strftime("%Y-%m-%d")] *)
Definition date_label (tz us : Z) : string := date_of_seconds (local_seconds tz us).

(** [datetime(us, tz).strftime("%Y-%m-%d %H:%M:%S")] *)
Definition timestamp_label (tz us : Z) : string :=
  let s := local_seconds tz us in
  date_of_seconds s +:+ " " +:+ time_of_seconds s.

(** *** Reading a label back: [datetime.strptime(s, "%Y-%m-%d %H:%M:%S")]

    [strptime] compiles the format to a regular expression: [%Y] is four
    digits; each other field is an alternation tried in order, the
    two-digit forms before the one-digit form; a blank of the format stands
    for one or more whitespace characters.  The expression is matched at
    the start of the text, and text left over is an error. *)

Definition one_digit (s : string) : option (Z * string) :=
  match s with
  | String c r => d ← Text.digit_value c; Some (d, r)
  | EmptyString => None
  end.

Definition two_digits (s : string) : option (Z * Z * string) :=
  '(a, r) ← one_digit s; '(b, r') ← one_digit r; Some (a, b, r').

(** The matches of a field, in the order the alternation tries them. *)
Definition field (two : Z → Z → bool) (one : Z → bool) (s : string) : list (Z * string) :=
  match two_digits s with
  | Some (a, b, r) => if two a b then [(10 * a + b, r)] else []
  | None => []
  end ++
  match one_digit s with
  | Some (a, r) => if one a then [(a, r)] else []
  | None => []
  end.

(** [1[0-2]|0[1-9]|[1-9]] *)
Definition month_field : string → list (Z * string) :=
  field (λ a b, ((a =? 1) && (b <=? 2)) || ((a =? 0) && (1 <=? b))) (λ a, 1 <=? a).

(** [3[01]|[12]\d|0[1-9]|[1-9]| [1-9]] *)
Definition day_field (s : string) : list (Z * string) :=
  field (λ a b, ((a =? 3) && (b <=? 1)) || (a =? 1) || (a =? 2) || ((a =? 0) && (1 <=? b)))
        (λ a, 1 <=? a) s ++
  match s with
  | String " " r => match one_digit r with
                    | Some (a, r') => if 1 <=? a then [(a, r')] else []
                    | None => []
                    end
  | _ => []
  end.

(** [2[0-3]|[0-1]\d|\d] *)
Definition hour_field : string → list (Z * string) :=
  field (λ a b, ((a =? 2) && (b <=? 3)) || (a <=? 1)) (λ _, true).

(** [[0-5]\d|\d] *)
Definition minute_field : string → list (Z * string) :=
  field (λ a _, a <=? 5) (λ _, true).

(** [6[0-1]|[0-5]\d|\d] *)
Definition second_field : string → list (Z * string) :=
  field (λ a b, ((a =? 6) && (b <=? 1)) || (a <=? 5)) (λ _, true).

Definition year_field (s : string) : option (Z * string) :=
  '(a, b, r) ← two_digits s; '(c, d, r') ← two_digits r;
  Some (1000 * a + 100 * b + 10 * c + d, r').

Definition lit (c : ascii) (s : string) : option string :=
  match s with
  | String d r => if Ascii.eqb c d then Some r else None
  | EmptyString => None
  end.

Definition blanks (s : string) : option string :=
  match s with
  | String c r => if Text.py_isspace c then Some (Text.lstrip r) else None
  | EmptyString => None
  end.

(** The first alternative with which the rest of the pattern matches. *)
Fixpoint first_of {A B : Type} (alts : list A) (k : A → option B) : option B :=
  match alts with
  | [] => None
  | a :: alts' => match k a with
                  | Some b => Some b
                  | None => first_of alts' k
                  end
  end.

Record civil := Civil {
  c_year : Z; c_month : Z; c_day : Z; c_hour : Z; c_minute : Z; c_second : Z }.

Definition match_label (s : string) : option (civil * string) :=
  '(y, s) ← year_field s; s ← lit "-" s;
  first_of (month_field s) (λ '(mo, s), s ← lit "-" s;
  first_of (day_field s) (λ '(d, s), s ← blanks s;
  first_of (hour_field s) (λ '(h, s), s ← lit ":" s;
  first_of (minute_field s) (λ '(mi, s), s ← lit ":" s;
  first_of (second_field s) (λ '(se, s), Some (Civil y mo d h mi se, s)))))).

(** What the [datetime] constructor accepts of the fields matched. *)
Definition valid_civil (c : civil) : bool :=
  (1 <=? c_year c) && (c_day c <=? days_in_month (c_year c) (c_month c)) && (c_second c <=? 59).

(** [None] stands for [ValueError]. *)
Definition strptime (s : string) : option civil :=
  '(c, rest) ← match_label s;
  if Text.nonempty rest then None else if valid_civil c then Some c else None.

(** Seconds (wall clock, any zone) between 1970-01-01 00:00:00 and [c]. *)
Definition civil_seconds (c : civil) : Z :=
  days_from_civil (c_year c) (c_month c) (c_day c) * 86400
  + c_hour c * 3600 + c_minute c * 60 + c_second c.

(** The wall-clock seconds [datetime] can represent: years 1 to 9999. *)
Definition representable (s : Z) : bool :=
  (days_from_civil 1 1 1 * 86400 <=? s) && (s <? days_from_civil 10000 1 1 * 86400).

(** The day, in Korean time, of a label written in Vietnamese time:
    [strptime(s, ...).replace(tzinfo=VN_TZ).astimezone(KST_TZ).strftime("%Y-%m-%d")]. *)
Inductive label_day :=
| BadLabel                 (* ValueError: the text is not a timestamp *)
| OutOfRange               (* OverflowError: the instant leaves years 1..9999 *)
| OnDay (d : string).

Definition kst_day_of_vn_label (s : string) : label_day :=
  match strptime s with
  | None => BadLabel
  | Some c =>
      let utc := civil_seconds c - VN_TZ * 3600 in
      let kst := utc + KST_TZ * 3600 in
      if representable utc && representable kst then OnDay (date_of_seconds kst) else OutOfRange
  end.

End Calendar.

(** ** Numbers: the float arithmetic of the velocity *)

Module Num.

(** [float(n)] for an integer: the nearest binary64 value, ties to even.
    (Python raises [OverflowError] from 2^1024 on; the value here is
    infinite.) *)
Definition int_to_float (z : Z) : float := SF2Prim (binary_normalize prec emax z 0 false).

Definition exact (z : Z) : spec_float :=
  match z with
  | Z0 => S754_zero false
  | Zpos p => S754_finite false p 0
  | Zneg p => S754_finite true p 0
  end.

(** [a / b] on integers: the correctly rounded quotient. *)
Definition int_truediv (a b : Z) : float := SF2Prim (SFdiv prec emax (exact a) (exact b)).

(** [max(x, y)] on two floats: the first unless the second is greater. *)
Definition py_max (x y : float) : float := if PrimFloat.ltb x y then y else x.

(** [n / d] rounded to the nearest integer, ties to even, for [0 < d]. *)
Definition round_half_even (n d : Z) : Z :=
  let q := n / d in
  let r := n mod d in
  if 2 * r <? d then q
  else if d <? 2 * r then q + 1
  else if Z.even q then q else q + 1.

(** [round(x, 1)]: the exact value of [x] is rounded to a multiple of one
    tenth, ties to even, and that decimal is read back as a float. *)
Definition py_round1 (x : float) : float :=
  match Prim2SF x with
  | S754_finite s m e =>
      if 0 <=? e then x
      else match round_half_even (10 * Z.pos m) (2 ^ (- e)) with
           | Zpos k => SF2Prim (SFdiv prec emax (S754_finite s k 0) (exact 10))
           | _ => SF2Prim (S754_zero s)
           end
  | _ => x
  end.

(** [timedelta.total_seconds()] of a difference of [us] microseconds. *)
Definition total_seconds (us : Z) : float := int_truediv us (10 ^ 6).

(** The floor of the elapsed minutes in [api_current]. *)
Definition minutes_floor : float := 0.0167%float.

(** [max((t_latest - t_prev).total_seconds() / 60.0, 0.0167)] *)
Definition elapsed_minutes (t_latest t_prev : Z) : float :=
  py_max (total_seconds (t_latest - t_prev) / 60)%float minutes_floor.

(** [round(diff / minutes, 1)] *)
Definition velocity (diff : Z) (minutes : float) : float :=
  py_round1 (int_to_float diff / minutes)%float.

End Num.

Import Text Calendar.

(** ** Data model *)

(** One candidate of a snapshot: [{"id", "name", "image", "votes"}]. *)
Record Candidate := {
  cand_id : string;
  cand_name : string;
  cand_image : string;
  cand_votes : Z }.

(** [{"timestamp", "candidates", "total"}]; the timestamp is the instant
    whose ISO text the program stores. *)
Record Snapshot := {
  timestamp : Z;
  candidates : list Candidate;
  total : Z }.

(** [current_data] *)
Record CurrentData := {
  poll_title : string;
  poll_body : string;
  poll_image : string;
  cd_candidates : list Candidate;
  total_votes : Z;
  last_updated : option Z;
  error : option string }.

(** [_prev_day_data] *)
Record PrevDay := {
  pd_date : option string;
  pd_winner : option string;
  pd_winner_votes : Z;
  pd_runnerup : option string;
  pd_runnerup_votes : Z;
  pd_diff : Z;
  pd_loaded : bool }.

(** A row of either sink: [[timestamp, doran, doran_diff, guma, guma_diff, gap]]. *)
Record Row := {
  row_ts : string;
  row_doran : Z;
  row_doran_diff : Z;
  row_guma : Z;
  row_guma_diff : Z;
  row_gap : Z }.

(** A row of [result.xlsx]. *)
Inductive xrow :=
| HeaderRow
| DataRow (r : Row).

(** [access_token], [refresh_token], [token_expiry] *)
Record Auth := {
  access_token : option string;
  refresh_token : option string;
  token_expiry : Z }.

(** The spreadsheet client: [_gsheet] and [_gsheet_throttle] (is the handle
    set?), [_gsheet.row_count], [_gsheet_initialized], [_gsheet_row_counter],
    [_gsheet_queue].  The row count is a number the worksheet handle keeps:
    the size of the grid as it was read when the worksheet was opened, plus
    one for every row appended through the handle since. *)
Record GSheet := {
  gsheet : bool;
  gsheet_rows : nat;
  gsheet_throttle : bool;
  gsheet_initialized : bool;
  gsheet_row_counter : nat;
  gsheet_queue : list Row }.

(** The remote spreadsheet: the grid of the first worksheet, row by row (a
    row without text is blank), and cell A1 of the worksheet "_throttle"
    ([None] when that worksheet does not exist). *)
Record Remote := {
  sheet1 : list (list string);
  throttle_a1 : option string }.

(** ** Exceptions, interactions and the world *)

Inductive exn_class :=
| Failure              (* any other [Exception] *)
| ValueError
| KeyError
| OverflowError
| RecursionError
| UnboundLocalError
| WorksheetNotFound.

(** An exception; [exn_msg] is [str(e)]. *)
Record exn := Exn { exn_cls : exn_class; exn_msg : string }.

Inductive endpoint :=
| AuthorizePage | Login | OAuthAuthorize | TokenSocial | TokenRefresh
| PollMetadata | PollResults.

Inductive sheet_op :=
| OpenSheet | GetThrottleSheet | AddThrottleSheet
| UpdateThrottle (v : string) | ReadThrottle
| ReadCell (row col : nat)
| UpdateHeader | FormatHeader | FreezeHeader
| ColValues | RowValues (row : nat)
| AppendRow (r : Row) | BatchFormat (row_idx : nat).

Inductive file_op := LoadWorkbook | CreateWorkbook | SaveWorkbook.

Inductive event :=
| Request (e : endpoint)
| SheetCall (op : sheet_op)
| FileCall (op : file_op)
| Sleep (ms : Z).

(** One option of the results payload; a field is [None] when its key is absent. *)
Record option_result := {
  questionOptionId : option string;
  content : option string;
  images : option (list string);
  numberOfSelectors : option Z }.

(** A JSON object, by the keys the program reads. *)
Record json := {
  accessToken : option string;
  refreshToken : option string;
  code : option string;
  title : option string;
  body : option string;
  mainImage : option string;
  questionOptionResults : option (list option_result);
  other_keys : bool }.

Inductive payload :=
| NotJson
| Object (j : json).

Inductive reply :=
| NoReply (e : exn)                    (* the request raises *)
| Reply (status : Z) (p : payload).

(** The configuration read at import, the room the interpreter leaves for
    nested calls of [fetch_poll_results], and the outside: the clock at
    each position of the trace, the reply to an HTTP request made there,
    and the failure (if any) of a spreadsheet or file call made there. *)
Record World := {
  IS_VERCEL : bool;
  ENABLE_VERCEL_GSHEET_WRITE : bool;
  FETCH_INTERVAL : Z;
  WRITE_INTERVAL : Z;
  GOOGLE_CREDS_FILE : bool;
  spare_frames : nat;
  clock : nat → Z;
  http : nat → endpoint → reply;
  failure : nat → event → option exn }.

(** ** State *)

Record State := {
  auth : Auth;
  current_data : CurrentData;
  vote_history : list Snapshot;
  prev_day_data : PrevDay;
  prev_day_kst_date : option string;
  prev_day_loaded : bool;
  last_write_time : Z;
  last_write_snapshot : option (Z * Z);
  gs : GSheet;
  remote : Remote;
  result_xlsx : option (list xrow);
  trace : list event }.

Definition set_auth (a : Auth) (s : State) : State :=
  {| auth := a; current_data := current_data s; vote_history := vote_history s;
     prev_day_data := prev_day_data s; prev_day_kst_date := prev_day_kst_date s;
     prev_day_loaded := prev_day_loaded s; last_write_time := last_write_time s;
     last_write_snapshot := last_write_snapshot s; gs := gs s; remote := remote s;
     result_xlsx := result_xlsx s; trace := trace s |}.

Definition set_current_data (d : CurrentData) (s : State) : State :=
  {| auth := auth s; current_data := d; vote_history := vote_history s;
     prev_day_data := prev_day_data s; prev_day_kst_date := prev_day_kst_date s;
     prev_day_loaded := prev_day_loaded s; last_write_time := last_write_time s;
     last_write_snapshot := last_write_snapshot s; gs := gs s; remote := remote s;
     result_xlsx := result_xlsx s; trace := trace s |}.

Definition set_vote_history (h : list Snapshot) (s : State) : State :=
  {| auth := auth s; current_data := current_data s; vote_history := h;
     prev_day_data := prev_day_data s; prev_day_kst_date := prev_day_kst_date s;
     prev_day_loaded := prev_day_loaded s; last_write_time := last_write_time s;
     last_write_snapshot := last_write_snapshot s; gs := gs s; remote := remote s;
     result_xlsx := result_xlsx s; trace := trace s |}.

Definition set_prev_day_data (p : PrevDay) (s : State) : State :=
  {| auth := auth s; current_data := current_data s; vote_history := vote_history s;
     prev_day_data := p; prev_day_kst_date := prev_day_kst_date s;
     prev_day_loaded := prev_day_loaded s; last_write_time := last_write_time s;
     last_write_snapshot := last_write_snapshot s; gs := gs s; remote := remote s;
     result_xlsx := result_xlsx s; trace := trace s |}.

Definition set_prev_day_kst_date (d : option string) (s : State) : State :=
  {| auth := auth s; current_data := current_data s; vote_history := vote_history s;
     prev_day_data := prev_day_data s; prev_day_kst_date := d;
     prev_day_loaded := prev_day_loaded s; last_write_time := last_write_time s;
     last_write_snapshot := last_write_snapshot s; gs := gs s; remote := remote s;
     result_xlsx := result_xlsx s; trace := trace s |}.

Definition set_prev_day_loaded (b : bool) (s : State) : State :=
  {| auth := auth s; current_data := current_data s; vote_history := vote_history s;
     prev_day_data := prev_day_data s; prev_day_kst_date := prev_day_kst_date s;
     prev_day_loaded := b; last_write_time := last_write_time s;
     last_write_snapshot := last_write_snapshot s; gs := gs s; remote := remote s;
     result_xlsx := result_xlsx s; trace := trace s |}.

Definition set_last_write_time (t : Z) (s : State) : State :=
  {| auth := auth s; current_data := current_data s; vote_history := vote_history s;
     prev_day_data := prev_day_data s; prev_day_kst_date := prev_day_kst_date s;
     prev_day_loaded := prev_day_loaded s; last_write_time := t;
     last_write_snapshot := last_write_snapshot s; gs := gs s; remote := remote s;
     result_xlsx := result_xlsx s; trace := trace s |}.

Definition set_last_write_snapshot (b : option (Z * Z)) (s : State) : State :=
  {| auth := auth s; current_data := current_data s; vote_history := vote_history s;
     prev_day_data := prev_day_data s; prev_day_kst_date := prev_day_kst_date s;
     prev_day_loaded := prev_day_loaded s; last_write_time := last_write_time s;
     last_write_snapshot := b; gs := gs s; remote := remote s;
     result_xlsx := result_xlsx s; trace := trace s |}.

Definition set_gs (g : GSheet) (s : State) : State :=
  {| auth := auth s; current_data := current_data s; vote_history := vote_history s;
     prev_day_data := prev_day_data s; prev_day_kst_date := prev_day_kst_date s;
     prev_day_loaded := prev_day_loaded s; last_write_time := last_write_time s;
     last_write_snapshot := last_write_snapshot s; gs := g; remote := remote s;
     result_xlsx := result_xlsx s; trace := trace s |}.

Definition set_remote (r : Remote) (s : State) : State :=
  {| auth := auth s; current_data := current_data s; vote_history := vote_history s;
     prev_day_data := prev_day_data s; prev_day_kst_date := prev_day_kst_date s;
     prev_day_loaded := prev_day_loaded s; last_write_time := last_write_time s;
     last_write_snapshot := last_write_snapshot s; gs := gs s; remote := r;
     result_xlsx := result_xlsx s; trace := trace s |}.

Definition set_result_xlsx (f : option (list xrow)) (s : State) : State :=
  {| auth := auth s; current_data := current_data s; vote_history := vote_history s;
     prev_day_data := prev_day_data s; prev_day_kst_date := prev_day_kst_date s;
     prev_day_loaded := prev_day_loaded s; last_write_time := last_write_time s;
     last_write_snapshot := last_write_snapshot s; gs := gs s; remote := remote s;
     result_xlsx := f; trace := trace s |}.

Definition set_trace (t : list event) (s : State) : State :=
  {| auth := auth s; current_data := current_data s; vote_history := vote_history s;
     prev_day_data := prev_day_data s; prev_day_kst_date := prev_day_kst_date s;
     prev_day_loaded := prev_day_loaded s; last_write_time := last_write_time s;
     last_write_snapshot := last_write_snapshot s; gs := gs s; remote := remote s;
     result_xlsx := result_xlsx s; trace := t |}.

Definition set_error (e : option string) (d : CurrentData) : CurrentData :=
  {| poll_title := poll_title d; poll_body := poll_body d; poll_image := poll_image d;
     cd_candidates := cd_candidates d; total_votes := total_votes d;
     last_updated := last_updated d; error := e |}.

Definition set_gsheet (b : bool) (g : GSheet) : GSheet :=
  {| gsheet := b; gsheet_rows := gsheet_rows g; gsheet_throttle := gsheet_throttle g;
     gsheet_initialized := gsheet_initialized g;
     gsheet_row_counter := gsheet_row_counter g; gsheet_queue := gsheet_queue g |}.

Definition set_gsheet_rows (n : nat) (g : GSheet) : GSheet :=
  {| gsheet := gsheet g; gsheet_rows := n; gsheet_throttle := gsheet_throttle g;
     gsheet_initialized := gsheet_initialized g;
     gsheet_row_counter := gsheet_row_counter g; gsheet_queue := gsheet_queue g |}.

Definition set_gsheet_throttle (b : bool) (g : GSheet) : GSheet :=
  {| gsheet := gsheet g; gsheet_rows := gsheet_rows g; gsheet_throttle := b;
     gsheet_initialized := gsheet_initialized g;
     gsheet_row_counter := gsheet_row_counter g; gsheet_queue := gsheet_queue g |}.

Definition set_gsheet_initialized (b : bool) (g : GSheet) : GSheet :=
  {| gsheet := gsheet g; gsheet_rows := gsheet_rows g;
     gsheet_throttle := gsheet_throttle g;
     gsheet_initialized := b;
     gsheet_row_counter := gsheet_row_counter g; gsheet_queue := gsheet_queue g |}.

Definition set_gsheet_row_counter (n : nat) (g : GSheet) : GSheet :=
  {| gsheet := gsheet g; gsheet_rows := gsheet_rows g;
     gsheet_throttle := gsheet_throttle g;
     gsheet_initialized := gsheet_initialized g;
     gsheet_row_counter := n; gsheet_queue := gsheet_queue g |}.

Definition set_gsheet_queue (q : list Row) (g : GSheet) : GSheet :=
  {| gsheet := gsheet g; gsheet_rows := gsheet_rows g;
     gsheet_throttle := gsheet_throttle g;
     gsheet_initialized := gsheet_initialized g;
     gsheet_row_counter := gsheet_row_counter g; gsheet_queue := q |}.

Definition set_sheet1 (g : list (list string)) (r : Remote) : Remote :=
  {| sheet1 := g; throttle_a1 := throttle_a1 r |}.

Definition set_throttle_a1 (v : option string) (r : Remote) : Remote :=
  {| sheet1 := sheet1 r; throttle_a1 := v |}.

(** ** The monad of the program: state and exceptions *)

Inductive res (A : Type) :=
| Val (a : A)
| Raise (e : exn).
Arguments Val {A} a.
Arguments Raise {A} e.

Definition M (A : Type) : Type := State → res A * State.

Definition ret {A} (a : A) : M A := λ s, (Val a, s).

Definition bind {A B} (m : M A) (k : A → M B) : M B :=
  λ s, match m s with
       | (Val a, s') => k a s'
       | (Raise e, s') => (Raise e, s')
       end.

Definition raise {A} (e : exn) : M A := λ s, (Raise e, s).

(** [try: m  except Exception as e: h e] *)
Definition try_ {A} (m : M A) (h : exn → M A) : M A :=
  λ s, match m s with
       | (Val a, s') => (Val a, s')
       | (Raise e, s') => h e s'
       end.

Definition gets {A} (f : State → A) : M A := λ s, (Val (f s), s).

Definition modify (f : State → State) : M unit := λ s, (Val tt, f s).

Notation "x <- m ;; k" := (bind m (λ x, k))
  (at level 20, m at level 99, k at level 200, only parsing).
Notation "m ;; k" := (bind m (λ _, k))
  (at level 100, k at level 200, only parsing).

(** The state a computation ends in, and what it returns or raises. *)
Definition after {A} (m : M A) (s : State) : State := snd (m s).
Definition outcome {A} (m : M A) (s : State) : res A := fst (m s).

(** ** The program *)

Section Program.

Context (W : World).

(** *** Interactions *)

(** Append an interaction to the trace; the result is its position. *)
Definition emit (ev : event) : M nat :=
  λ s, (Val (length (trace s)), set_trace (trace s ++ [ev]) s).

(** [time.time()] and [datetime.now(...)], in microseconds. *)
Definition now_us : M Z := gets (λ s, clock W (length (trace s))).

(** [time.sleep] *)
Definition sleep (ms : Z) : M unit := emit (Sleep ms) ;; ret tt.

(** An HTTP request: the status and the body of the reply. *)
Definition request (e : endpoint) : M (Z * payload) :=
  i <- emit (Request e) ;;
  match http W i e with
  | NoReply x => raise x
  | Reply status p => ret (status, p)
  end.

(** [r.json()] *)
Definition json_of (p : payload) : M json :=
  match p with
  | NotJson => raise (Exn ValueError "Expecting value")
  | Object j => ret j
  end.

(** [d[key]] *)
Definition item (key : string) (v : option string) : M string :=
  match v with
  | Some x => ret x
  | None => raise (Exn KeyError ("'" +:+ key +:+ "'"))
  end.

(** A call of the spreadsheet API, and a file operation: each may fail. *)
Definition sheet_call (op : sheet_op) : M unit :=
  i <- emit (SheetCall op) ;;
  match failure W i (SheetCall op) with
  | Some x => raise x
  | None => ret tt
  end.

Definition file_call (op : file_op) : M unit :=
  i <- emit (FileCall op) ;;
  match failure W i (FileCall op) with
  | Some x => raise x
  | None => ret tt
  end.

(** Truth value of an optional string: [None] and [""] are false. *)
Definition truthy (v : option string) : bool :=
  match v with
  | Some x => nonempty x
  | None => false
  end.

Definition present {A} (v : option A) : bool :=
  match v with
  | Some _ => true
  | None => false
  end.

(** Truth value of a JSON object: false when it has no key. *)
Definition json_truthy (j : json) : bool :=
  present (accessToken j) || present (refreshToken j) || present (code j)
  || present (title j) || present (body j) || present (mainImage j)
  || present (questionOptionResults j) || other_keys j.

(** *** Authentication *)

(** The token lease: 25 minutes. *)
Definition lease : Z := 25 * 60 * 10 ^ 6.

Definition set_current_error (msg : string) : M unit :=
  modify (λ s, set_current_data (set_error (Some msg) (current_data s)) s).

(** The login chain.  The message of a refused step shows the status (the
    excerpt of the body that follows it in the program is left out). *)
Definition authenticate : M bool :=
  try_
    (request AuthorizePage ;;
     r1 <- request Login ;;
     (if negb (r1.1 =? 200)
      then raise (Exn Failure ("Login failed: " +:+ py_str r1.1)) else ret tt) ;;
     j1 <- json_of r1.2 ;;
     account_token <- item "accessToken" (accessToken j1) ;;
     r2 <- request OAuthAuthorize ;;
     (if negb (r2.1 =? 200)
      then raise (Exn Failure ("OAuth authorize failed: " +:+ py_str r2.1)) else ret tt) ;;
     j2 <- json_of r2.2 ;;
     code <- item "code" (code j2) ;;
     r3 <- request TokenSocial ;;
     (if negb (r3.1 =? 200)
      then raise (Exn Failure ("Token exchange failed: " +:+ py_str r3.1)) else ret tt) ;;
     token_data <- json_of r3.2 ;;
     access <- item "accessToken" (accessToken token_data) ;;
     t <- now_us ;;
     modify (set_auth {| access_token := Some access;
                         refresh_token := Some (default "" (refreshToken token_data));
                         token_expiry := t + lease |}) ;;
     ret true)
    (λ e, set_current_error ("Authentication failed: " +:+ exn_msg e) ;; ret false).

Definition ensure_auth : M bool :=
  a <- gets auth ;;
  t <- now_us ;;
  if negb (truthy (access_token a)) || (token_expiry a <? t)
  then authenticate
  else ret true.

Definition try_refresh_token : M bool :=
  a <- gets auth ;;
  if negb (truthy (refresh_token a)) then authenticate
  else
    refreshed <- try_
      (r <- request TokenRefresh ;;
       if r.1 =? 200 then
         data <- json_of r.2 ;;
         t <- now_us ;;
         modify (set_auth
           {| access_token := match accessToken data with
                              | Some x => Some x
                              | None => access_token a
                              end;
              refresh_token := match refreshToken data with
                               | Some x => Some x
                               | None => refresh_token a
                               end;
              token_expiry := t + lease |}) ;;
         ret true
       else ret false)
      (λ _, ret false) ;;
    if refreshed then ret true else authenticate.

(** *** Fetching *)

Definition fetch_poll_metadata : M (option json) :=
  try_
    (r <- request PollMetadata ;;
     if r.1 =? 200 then j <- json_of r.2 ;; ret (Some j) else ret None)
    (λ _, ret None).

(** [fetch_poll_results], which calls itself after a refresh.  [frames] is
    the number of activations the interpreter still admits; past it the
    call raises [RecursionError], which the caller's handler catches. *)
Fixpoint fetch_poll_results_rec (frames : nat) : M (option json) :=
  match frames with
  | O => raise (Exn RecursionError "maximum recursion depth exceeded")
  | S frames' =>
      ok <- ensure_auth ;;
      if negb ok then ret None
      else
        try_
          (r <- request PollResults ;;
           if r.1 =? 200 then j <- json_of r.2 ;; ret (Some j)
           else if r.1 =? 401 then
             refreshed <- try_refresh_token ;;
             if refreshed then fetch_poll_results_rec frames' else ret None
           else ret None)
          (λ _, ret None)
  end.

Definition fetch_poll_results : M (option json) :=
  fetch_poll_results_rec (S (spare_frames W)).

(** *** The tracked pair *)

Definition TRACK_NAMES : list string := ["T1 Doran"; "Hanwha Life Esports Gumayusi"].

(** [{c["name"].strip(): c["votes"] for c in cands if c["name"].strip() in TRACK_NAMES}]:
    a later candidate of the same name replaces an earlier one. *)
Definition tracked_votes (cands : list Candidate) : gmap string Z :=
  foldl (λ m c, if bool_decide (strip (cand_name c) ∈ TRACK_NAMES)
                then <[strip (cand_name c) := cand_votes c]> m else m) ∅ cands.

(** [{c["name"].strip(): c["votes"] for c in cands}] *)
Definition votes_by_stripped_name (cands : list Candidate) : gmap string Z :=
  foldl (λ m c, <[strip (cand_name c) := cand_votes c]> m) ∅ cands.

(** [{c["name"]: c["votes"] for c in cands}] *)
Definition votes_by_name (cands : list Candidate) : gmap string Z :=
  foldl (λ m c, <[cand_name c := cand_votes c]> m) ∅ cands.

(** [history[-2]], for a list of two elements at least *)
Definition second_last {A} (l : list A) : option A :=
  if (2 <=? length l)%nat then l !! (length l - 2)%nat else None.

(** The two differences of a row: against the baseline of the last write
    when there is one, else against the snapshot before the last, else 0. *)
Definition row_diffs (doran guma : Z) (baseline : option (Z * Z))
    (history : list Snapshot) : Z * Z :=
  match baseline with
  | Some (d, g) => (doran - d, guma - g)
  | None =>
      match second_last history with
      | Some prev =>
          let prev_map := votes_by_stripped_name (candidates prev) in
          (doran - default doran (prev_map !! "T1 Doran"),
           guma - default guma (prev_map !! "Hanwha Life Esports Gumayusi"))
      | None => (0, 0)
      end
  end.

(** The row both writers build, or [None] when they return before building
    it: no candidate, or fewer than two tracked names. *)
Definition build_row : M (option Row) :=
  cands <- gets (λ s, cd_candidates (current_data s)) ;;
  history <- gets vote_history ;;
  if negb (bool_decide (cands ≠ [])) then ret None
  else
    let tracked := tracked_votes cands in
    if bool_decide (size tracked < 2)%nat then ret None
    else
      let doran := default 0 (tracked !! "T1 Doran") in
      let guma := default 0 (tracked !! "Hanwha Life Esports Gumayusi") in
      ts_iso <- gets (λ s, last_updated (current_data s)) ;;
      t <- now_us ;;
      baseline <- gets last_write_snapshot ;;
      let label := timestamp_label VN_TZ (default t ts_iso) in
      let d := row_diffs doran guma baseline history in
      ret (Some {| row_ts := label; row_doran := doran; row_doran_diff := d.1;
                   row_guma := guma; row_guma_diff := d.2; row_gap := doran - guma |}).

(** *** The remote spreadsheet *)

Definition header_cells : list string :=
  ["Time"; "Doran Votes"; "Doran (+)"; "Gumayusi Votes"; "Gumayusi (+)"; "Gap (D−G)"].

(** The cells of a row appended with [value_input_option="RAW"]. *)
Definition row_cells (r : Row) : list string :=
  [row_ts r; py_str (row_doran r); py_str (row_doran_diff r);
   py_str (row_guma r); py_str (row_guma_diff r); py_str (row_gap r)].

Definition blank_row (cells : list string) : bool :=
  forallb (λ c, negb (nonempty c)) cells.

(** The number of rows up to the last row that is not blank. *)
Fixpoint used_rows (g : list (list string)) : nat :=
  match g with
  | [] => O
  | r :: g' =>
      match used_rows g' with
      | O => if blank_row r then O else 1%nat
      | S n => S (S n)
      end
  end.

(** [append_row]: the cells go to the row after the last used one; the grid
    grows only when that row is past its end. *)
Definition grid_append (g : list (list string)) (cells : list string) : list (list string) :=
  take (used_rows g) g ++ [cells] ++ drop (S (used_rows g)) g.

(** [cell(row, col).value], rows and columns counted from 1; an empty cell
    has no value. *)
Definition cell_value (g : list (list string)) (row col : nat) : option string :=
  r ← g !! (row - 1)%nat; c ← r !! (col - 1)%nat; if nonempty c then Some c else None.

(** Values are returned up to the last one that is not empty. *)
Fixpoint trim_trailing (l : list string) : list string :=
  match l with
  | [] => []
  | c :: l' =>
      match trim_trailing l' with
      | [] => if nonempty c then [c] else []
      | t => c :: t
      end
  end.

(** [col_values(1)] and [row_values(row)] *)
Definition col_values (g : list (list string)) : list string :=
  trim_trailing (map (λ r, default "" (head r)) g).

Definition row_values (g : list (list string)) (row : nat) : list string :=
  trim_trailing (default [] (g !! (row - 1)%nat)).

(** [update(values=[header], range_name="A1:F1")] *)
Definition write_header (g : list (list string)) : list (list string) :=
  match g with
  | [] => [header_cells]
  | _ :: g' => header_cells :: g'
  end.

Definition modify_gs (f : GSheet → GSheet) : M unit :=
  modify (λ s, set_gs (f (gs s)) s).

Definition modify_remote (f : Remote → Remote) : M unit :=
  modify (λ s, set_remote (f (remote s)) s).

(** [_gsheet.row_count]: the number of rows of the grid, blank rows
    included, as the worksheet handle holds it; reading it costs no call. *)
Definition row_count : M nat := gets (λ s, gsheet_rows (gs s)).

(** [cell(row, col).value]; the service refuses a read past the end of the
    grid. *)
Definition read_cell (row col : nat) : M (option string) :=
  sheet_call (ReadCell row col) ;;
  g <- gets (λ s, sheet1 (remote s)) ;;
  if (length g <? row)%nat
  then raise (Exn Failure "APIError: [400]: Range exceeds grid limits")
  else ret (cell_value g row col).

Definition read_col_values : M (list string) :=
  sheet_call ColValues ;; gets (λ s, col_values (sheet1 (remote s))).

Definition read_row_values (row : nat) : M (list string) :=
  sheet_call (RowValues row) ;; gets (λ s, row_values (sheet1 (remote s)) row).

(** [append_row]: the handle adds the row it sent to its row count. *)
Definition append_row (r : Row) : M unit :=
  sheet_call (AppendRow r) ;;
  modify_remote (λ m, set_sheet1 (grid_append (sheet1 m) (row_cells r)) m) ;;
  modify_gs (λ g, set_gsheet_rows (S (gsheet_rows g)) g).

Definition update_throttle (v : string) : M unit :=
  sheet_call (UpdateThrottle v) ;;
  modify_remote (set_throttle_a1 (Some v)).

Definition read_throttle : M (option string) :=
  sheet_call ReadThrottle ;; gets (λ s, throttle_a1 (remote s)).

Definition is_worksheet_not_found (e : exn) : bool :=
  match exn_cls e with
  | WorksheetNotFound => true
  | _ => false
  end.

(** [try: m  except gspread.WorksheetNotFound: h] *)
Definition try_not_found {A} (m : M A) (h : M A) : M A :=
  λ s, match m s with
       | (Val a, s') => (Val a, s')
       | (Raise e, s') => if is_worksheet_not_found e then h s' else (Raise e, s')
       end.

Definition _init_gsheet : M bool :=
  if negb (GOOGLE_CREDS_FILE W) then ret false
  else
    try_
      (sheet_call OpenSheet ;;
       grid <- gets (λ s, sheet1 (remote s)) ;;
       modify_gs (λ g, set_gsheet true (set_gsheet_rows (length grid) g)) ;;
       try_not_found
         (sheet_call GetThrottleSheet ;;
          th <- gets (λ s, throttle_a1 (remote s)) ;;
          (if present th then ret tt
           else raise (Exn WorksheetNotFound "_throttle")) ;;
          modify_gs (set_gsheet_throttle true))
         (sheet_call AddThrottleSheet ;;
          modify_remote (set_throttle_a1 (Some "")) ;;
          modify_gs (set_gsheet_throttle true) ;;
          update_throttle "0") ;;
       rows <- row_count ;;
       empty <- (if Nat.eqb rows 0 then ret true
                 else v <- read_cell 1 1 ;; ret (negb (truthy v))) ;;
       (if empty : bool then
          sheet_call UpdateHeader ;;
          modify_remote (λ m, set_sheet1 (write_header (sheet1 m)) m) ;;
          sheet_call FormatHeader ;;
          sheet_call FreezeHeader
        else ret tt) ;;
       all_vals <- read_col_values ;;
       modify_gs (set_gsheet_row_counter (length all_vals)) ;;
       modify_gs (set_gsheet_initialized true) ;;
       ret true)
      (λ _, ret false).

(** [s[:16] if len(s) >= 16 else s] *)
Definition minute_key (s : string) : string :=
  if (16 <=? String.length s)%nat then substring 0 16 s else s.

Definition _gsheet_last_row_same_minute (new_ts_str : string) : M bool :=
  try_
    (g <- gets gs ;;
     if negb (gsheet_initialized g) || negb (gsheet g) then ret false
     else
       last_row <- row_count ;;
       if (last_row <? 2)%nat then ret false
       else
         v <- read_cell last_row 1 ;;
         let last_ts := strip (default "" v) in
         if negb (nonempty last_ts) || negb (nonempty new_ts_str) then ret false
         else ret (String.eqb (minute_key last_ts) (minute_key new_ts_str)))
    (λ _, ret false).

(** [float(val)] for a text of digits and dots: the digits read as an
    integer and the number of digits after the dot; [None] ([ValueError])
    when there is more than one dot. *)
Definition py_float (val : string) : option (Z * Z) :=
  if (1 <? count "." val)%nat then None
  else
    n ← int_literal (remove "." val);
    Some (n, match index 0 "." val with
             | Some i => Z.of_nat (String.length val - i - 1)
             | None => 0
             end).

(** The marker is compared as the exact decimal it spells; the program
    converts it and the clock to binary64 first. *)
Definition _gsheet_should_write : M bool :=
  if negb (IS_VERCEL W) then ret true
  else
    try_
      (g <- gets gs ;;
       ok <- (if gsheet_initialized g then ret true else _init_gsheet) ;;
       if negb ok then ret true
       else
         g <- gets gs ;;
         if negb (gsheet_throttle g) then ret true
         else
           v <- read_throttle ;;
           let val := remove "," (strip (default "" v)) in
           if negb (nonempty val) || negb (isdigit (remove "." val)) then ret true
           else
             match py_float val with
             | None => raise (Exn ValueError "could not convert string to float")
             | Some (n, k) =>
                 t <- now_us ;;
                 ret (WRITE_INTERVAL W * 10 ^ 6 * 10 ^ k <=? t * 10 ^ k - n * 10 ^ 6)
             end)
      (λ _, ret true).

(** *** The two sinks *)

(** [_init_xlsx]: a workbook with the header row, saved. *)
Definition _init_xlsx : M (list xrow) :=
  file_call CreateWorkbook ;;
  modify (set_result_xlsx (Some [HeaderRow])) ;;
  ret [HeaderRow].

Definition write_result_file : M unit :=
  try_
    (row <- build_row ;;
     match row with
     | None => ret tt
     | Some r =>
         file <- gets result_xlsx ;;
         wb <- match file with
               | Some rows => file_call LoadWorkbook ;; ret rows
               | None => _init_xlsx
               end ;;
         file_call SaveWorkbook ;;
         modify (set_result_xlsx (Some (wb ++ [DataRow r])))
     end)
    (λ _, ret tt).

(** [deque(maxlen=500).append] *)
Definition enqueue (r : Row) (q : list Row) : list Row :=
  if (500 <=? length q)%nat then drop 1 q ++ [r] else q ++ [r].

(** In the direct mode the statement after [append_row] is
    [_gsheet_row_counter += 1]; the function does not declare the name
    [global], so the name is local and reading it raises
    [UnboundLocalError]: the formatting and the marker update that follow
    are never reached. *)
Definition write_google_sheet : M unit :=
  try_
    (row <- build_row ;;
     match row with
     | None => ret tt
     | Some r =>
         same <- _gsheet_last_row_same_minute (row_ts r) ;;
         if same : bool then ret tt
         else if IS_VERCEL W then
           g <- gets gs ;;
           ok <- (if gsheet_initialized g then ret true else _init_gsheet) ;;
           if negb ok then ret tt
           else
             try_
               (append_row r ;;
                raise (Exn UnboundLocalError
                  "cannot access local variable '_gsheet_row_counter'"))
               (λ _, ret tt)
         else modify_gs (λ g, set_gsheet_queue (enqueue r (gsheet_queue g)) g)
     end)
    (λ _, ret tt).

(** One pass through the body of the loop of [_gsheet_writer_thread]. *)
Definition writer_pass : M unit :=
  try_
    (g <- gets gs ;;
     match gsheet_queue g with
     | [] => sleep 500
     | _ =>
         ok <- (if gsheet_initialized g then ret true else _init_gsheet) ;;
         if negb ok then sleep 10000
         else
           g <- gets gs ;;
           match gsheet_queue g with
           | [] => ret tt
           | row :: rest =>
               modify_gs (set_gsheet_queue rest) ;;
               same <- _gsheet_last_row_same_minute (row_ts row) ;;
               if same : bool then ret tt
               else
                 append_row row ;;
                 modify_gs (λ g, set_gsheet_row_counter (S (gsheet_row_counter g)) g) ;;
                 g <- gets gs ;;
                 sheet_call (BatchFormat (gsheet_row_counter g)) ;;
                 if gsheet_throttle g then
                   try_ (t <- now_us ;; update_throttle (py_str (t / 10 ^ 6)))
                        (λ _, ret tt)
                 else ret tt
           end
     end)
    (λ e, if contains "429" (exn_msg e) || contains "Quota" (exn_msg e)
          then sleep 60000
          else modify_gs (set_gsheet_initialized false) ;; sleep 5000).

(** [_gsheet_writer_thread], for a number of passes of its [while True]. *)
Fixpoint _gsheet_writer_thread (passes : nat) : M unit :=
  match passes with
  | O => ret tt
  | S passes' => writer_pass ;; _gsheet_writer_thread passes'
  end.

(** *** The tick: [fetch_poll_data] *)

Definition candidate_of (opt : option_result) : Candidate :=
  {| cand_id := default "" (questionOptionId opt);
     cand_name := default "Unknown" (content opt);
     cand_image := match images opt with
                   | Some (i :: _) => i
                   | _ => ""
                   end;
     cand_votes := default 0 (numberOfSelectors opt) |}.

Definition sum_votes (cands : list Candidate) : Z :=
  foldr Z.add 0 (map cand_votes cands).

(** [vote_history.append] on [deque(maxlen=17280)] *)
Definition history_append (snap : Snapshot) (h : list Snapshot) : list Snapshot :=
  if 17280 <=? Z.of_nat (length h) then drop 1 h ++ [snap] else h ++ [snap].

(** The result the test [if results:] lets through. *)
Definition usable (results : option json) : option json :=
  match results with
  | Some r => if json_truthy r then Some r else None
  | None => None
  end.

(** The lines under [if should_write:]. *)
Definition write_due (now_ts : Z) : M unit :=
  (if negb (IS_VERCEL W) then write_result_file else ret tt) ;;
  write_google_sheet ;;
  modify (set_last_write_time now_ts) ;;
  cands <- gets (λ s, cd_candidates (current_data s)) ;;
  let tracked := tracked_votes cands in
  if bool_decide (2 ≤ size tracked)%nat
  then modify (set_last_write_snapshot
                 (Some (default 0 (tracked !! "T1 Doran"),
                        default 0 (tracked !! "Hanwha Life Esports Gumayusi"))))
  else ret tt.

Definition should_write (now_ts : Z) : M bool :=
  if negb (IS_VERCEL W) then
    last <- gets last_write_time ;;
    ret (WRITE_INTERVAL W * 10 ^ 6 <=? now_ts - last)
  else if ENABLE_VERCEL_GSHEET_WRITE W then _gsheet_should_write
  else ret false.

Definition failed_message : string := "Failed to fetch poll results. Retrying...".

Definition fetch_poll_data : M unit :=
  metadata <- fetch_poll_metadata ;;
  results <- fetch_poll_results ;;
  match usable results with
  | Some r =>
      let cands := map candidate_of (default [] (questionOptionResults r)) in
      let total := sum_votes cands in
      stamp <- now_us ;;
      let snapshot := {| timestamp := stamp; candidates := cands; total := total |} in
      let meta := usable metadata in
      modify (λ s,
        let d := current_data s in
        set_current_data
          {| poll_title := match meta with Some m => default "" (title m) | None => poll_title d end;
             poll_body := match meta with Some m => default "" (body m) | None => poll_body d end;
             poll_image := match meta with Some m => default "" (mainImage m) | None => poll_image d end;
             cd_candidates := cands;
             total_votes := total;
             last_updated := Some stamp;
             error := None |}
          (set_vote_history (history_append snapshot (vote_history s)) s)) ;;
      now_ts <- now_us ;;
      due <- should_write now_ts ;;
      if due : bool then write_due now_ts else ret tt
  | None =>
      modify (λ s,
        if truthy (error (current_data s)) then s
        else set_current_data (set_error (Some failed_message) (current_data s)) s)
  end.

(** *** The day rollover *)

(** [sorted(candidates, key=votes, reverse=True)]: a stable sort, so
    candidates with equal votes keep the order of the list. *)
Fixpoint insert_by_votes (c : Candidate) (l : list Candidate) : list Candidate :=
  match l with
  | [] => [c]
  | x :: l' => if cand_votes c <? cand_votes x then x :: insert_by_votes c l' else c :: l
  end.

Definition sorted_by_votes (cands : list Candidate) : list Candidate :=
  foldr insert_by_votes [] cands.

(** The fact for the day [date] that just ended, from the current
    candidates; none when there is no candidate. *)
Definition rollover_fact (date : string) (cands : list Candidate) : option PrevDay :=
  match sorted_by_votes cands with
  | [] => None
  | winner :: others =>
      let runnerup := match others with
                      | r :: _ => (cand_name r, cand_votes r)
                      | [] => ("N/A", 0)
                      end in
      Some {| pd_date := Some date;
              pd_winner := Some (cand_name winner);
              pd_winner_votes := cand_votes winner;
              pd_runnerup := Some runnerup.1;
              pd_runnerup_votes := runnerup.2;
              pd_diff := cand_votes winner - runnerup.2;
              pd_loaded := true |}
  end.

Definition _check_day_change : M unit :=
  t <- now_us ;;
  let today_kst := date_label KST_TZ t in
  stored <- gets prev_day_kst_date ;;
  match stored with
  | None => modify (set_prev_day_kst_date (Some today_kst))
  | Some date =>
      if negb (String.eqb today_kst date) then
        cands <- gets (λ s, cd_candidates (current_data s)) ;;
        match rollover_fact date cands with
        | Some fact => modify (set_prev_day_data fact)
        | None => ret tt
        end ;;
        modify (set_prev_day_kst_date (Some today_kst))
      else ret tt
  end.

(** *** Recovery of the previous day from the spreadsheet *)

Definition parse_int (val : string) : option Z :=
  let s := strip val in
  let s := if (1 <? count "." s)%nat then remove "." s
           else if has_char "." s && has_char "," s then remove "," s
           else remove "." (remove "," s) in
  py_int s.

(** The search, from the last row up to the second, for the last row of
    yesterday: [rows] pairs each index with its label, last row first.  A
    label that does not parse is skipped; a row of an earlier day ends the
    search; [OverflowError] is not caught here. *)
Fixpoint scan_back (yesterday : string) (rows : list (nat * string)) : res (option nat) :=
  match rows with
  | [] => Val None
  | (i, ts) :: rows' =>
      match kst_day_of_vn_label ts with
      | BadLabel => scan_back yesterday rows'
      | OutOfRange => Raise (Exn OverflowError "date value out of range")
      | OnDay d =>
          if String.eqb d yesterday then Val (Some (S i))
          else if String.ltb d yesterday then Val None
          else scan_back yesterday rows'
      end
  end.

Definition lift {A} (r : res A) : M A := λ s, (r, s).

Definition int_item (cells : list string) (i : nat) : M Z :=
  match parse_int (default "" (cells !! i)) with
  | Some n => ret n
  | None => raise (Exn ValueError "invalid literal for int() with base 10")
  end.

Definition recovered_fact (yesterday : string) (doran guma : Z) : PrevDay :=
  if guma <=? doran then
    {| pd_date := Some yesterday; pd_winner := Some "T1 Doran"; pd_winner_votes := doran;
       pd_runnerup := Some "HLE Gumayusi"; pd_runnerup_votes := guma;
       pd_diff := doran - guma; pd_loaded := true |}
  else
    {| pd_date := Some yesterday; pd_winner := Some "HLE Gumayusi"; pd_winner_votes := guma;
       pd_runnerup := Some "T1 Doran"; pd_runnerup_votes := doran;
       pd_diff := guma - doran; pd_loaded := true |}.

Definition _load_prev_day_from_gsheet : M unit :=
  loaded <- gets prev_day_loaded ;;
  if loaded : bool then ret tt
  else
    modify (set_prev_day_loaded true) ;;
    try_
      (g <- gets gs ;;
       ok <- (if gsheet_initialized g then ret true else _init_gsheet) ;;
       if negb ok then ret tt
       else
         t <- now_us ;;
         modify (set_prev_day_kst_date (Some (date_label KST_TZ t))) ;;
         let yesterday_kst := date_of_seconds (local_seconds KST_TZ t - 86400) in
         all_ts <- read_col_values ;;
         if (length all_ts <=? 1)%nat then ret tt
         else
           target_row <- lift (scan_back yesterday_kst
                                 (reverse (drop 1 (imap (λ i ts, (i, ts)) all_ts)))) ;;
           match target_row with
           | None => ret tt
           | Some row =>
               row_data <- read_row_values row ;;
               if (length row_data <? 4)%nat then ret tt
               else
                 doran <- int_item row_data 1 ;;
                 guma <- int_item row_data 3 ;;
                 modify (set_prev_day_data (recovered_fact yesterday_kst doran guma))
           end)
      (λ _, ret tt).

(** *** The current state, with velocities: [api_current] *)

(** A candidate of the response: [{**c, "velocity", "diff", "gap_from_first"}]. *)
Record Enriched := {
  en_candidate : Candidate;
  en_velocity : float;
  en_diff : Z;
  en_gap_from_first : Z }.

Record Response := {
  rs_data : CurrentData;
  rs_candidates : list Enriched;
  rs_total_diff : Z;
  rs_total_velocity : float;
  rs_fetch_interval : Z;
  rs_history_length : nat;
  rs_previous_day : option PrevDay }.

(** [max(c["votes"] for c in candidates)], 0 without candidates *)
Definition first_place_votes (cands : list Candidate) : Z :=
  match cands with
  | [] => 0
  | c :: cands' => foldl Z.max (cand_votes c) (map cand_votes cands')
  end.

(** [history[-1]] and [history[-2]], when there are two snapshots *)
Definition latest_two (h : list Snapshot) : option (Snapshot * Snapshot) :=
  latest ← last h; previous ← second_last h; Some (latest, previous).

Definition enrich (first : Z) (minutes : float) (prev_map : gmap string Z)
    (c : Candidate) : Enriched :=
  let prev_votes := default (cand_votes c) (prev_map !! cand_name c) in
  let diff := cand_votes c - prev_votes in
  {| en_candidate := c;
     en_velocity := Num.velocity diff minutes;
     en_diff := diff;
     en_gap_from_first := first - cand_votes c |}.

(** The response built under the lock.  (With fewer than two snapshots the
    program stores the three keys in the candidates of [current_data]
    themselves; here they are part of the response only.) *)
Definition current_response (s : State) : Response :=
  let data := current_data s in
  let first := first_place_votes (cd_candidates data) in
  let previous_day := if pd_loaded (prev_day_data s) then Some (prev_day_data s) else None in
  match latest_two (vote_history s) with
  | Some (latest, previous) =>
      let minutes := Num.elapsed_minutes (timestamp latest) (timestamp previous) in
      let prev_map := votes_by_name (candidates previous) in
      {| rs_data := data;
         rs_candidates := map (enrich first minutes prev_map) (cd_candidates data);
         rs_total_diff := total latest - total previous;
         rs_total_velocity := Num.velocity (total latest - total previous) minutes;
         rs_fetch_interval := FETCH_INTERVAL W;
         rs_history_length := length (vote_history s);
         rs_previous_day := previous_day |}
  | None =>
      {| rs_data := data;
         rs_candidates := map (λ c, {| en_candidate := c; en_velocity := 0;
                                       en_diff := 0;
                                       en_gap_from_first := first - cand_votes c |})
                              (cd_candidates data);
         rs_total_diff := 0;
         rs_total_velocity := 0;
         rs_fetch_interval := FETCH_INTERVAL W;
         rs_history_length := length (vote_history s);
         rs_previous_day := previous_day |}
  end.

Definition api_current : M Response :=
  (if IS_VERCEL W then
     loaded <- gets prev_day_loaded ;;
     (if negb loaded then try_ _load_prev_day_from_gsheet (λ _, ret tt) else ret tt) ;;
     last <- gets (λ s, last_updated (current_data s)) ;;
     t <- now_us ;;
     let need_fetch := match last with
                       | Some l => 5 * 10 ^ 6 <? t - l
                       | None => true
                       end in
     if need_fetch then try_ (_check_day_change ;; fetch_poll_data) (λ _, ret tt)
     else ret tt
   else ret tt) ;;
  gets current_response.

(** One pass of the loop of [background_fetcher]. *)
Definition background_pass : M unit :=
  try_ (_check_day_change ;; fetch_poll_data) (λ _, ret tt) ;;
  sleep (FETCH_INTERVAL W * 1000).

End Program.

(** ** The state at import *)

Definition no_prev_day : PrevDay :=
  {| pd_date := None; pd_winner := None; pd_winner_votes := 0;
     pd_runnerup := None; pd_runnerup_votes := 0; pd_diff := 0; pd_loaded := false |}.

Definition no_data : CurrentData :=
  {| poll_title := ""; poll_body := ""; poll_image := ""; cd_candidates := [];
     total_votes := 0; last_updated := None; error := None |}.

(** The module-level names as the program sets them when it is loaded,
    beside a spreadsheet and a result file in some condition. *)
Definition initial_state (r : Remote) (f : option (list xrow)) : State :=
  {| auth := {| access_token := None; refresh_token := None; token_expiry := 0 |};
     current_data := no_data;
     vote_history := [];
     prev_day_data := no_prev_day;
     prev_day_kst_date := None;
     prev_day_loaded := false;
     last_write_time := 0;
     last_write_snapshot := None;
     gs := {| gsheet := false; gsheet_rows := 0; gsheet_throttle := false;
              gsheet_initialized := false; gsheet_row_counter := 0; gsheet_queue := [] |};
     remote := r;
     result_xlsx := f;
     trace := [] |}.

(** ** Vocabulary of the statements *)

(** *** Frames *)

(** The computation [m] leaves the view [f] of the state as it was. *)
Definition keeps {A B} (f : State → B) (m : M A) : Prop :=
  ∀ s, f (after m s) = f s.

(** The computation [m] raises nothing. *)
Definition never_raises {A} (m : M A) : Prop :=
  ∀ s, ∃ a, outcome m s = Val a.

(** Everything of the state but the session, the soft error and the trace. *)
Definition kept_data (s : State) :=
  (vote_history s, poll_title (current_data s), poll_body (current_data s),
   poll_image (current_data s), cd_candidates (current_data s),
   total_votes (current_data s), last_updated (current_data s),
   prev_day_data s, prev_day_kst_date s, prev_day_loaded s,
   last_write_time s, last_write_snapshot s, gs s, remote s, result_xlsx s).

(** [_gsheet_queue] *)
Definition queue_of (s : State) : list Row := gsheet_queue (gs s).

(** The part of the state the dedup is about: the client is connected,
    its row count, the queue, the rows of the sheet. *)
Definition sheet_view (s : State) :=
  (gsheet_initialized (gs s), gsheet (gs s), gsheet_rows (gs s),
   gsheet_queue (gs s), sheet1 (remote s)).

(** *** Traces *)

Fixpoint count_events (p : event → bool) (t : list event) : nat :=
  match t with
  | [] => O
  | ev :: t' => if p ev then S (count_events p t') else count_events p t'
  end.

Definition is_results_request (ev : event) : bool :=
  match ev with
  | Request PollResults => true
  | _ => false
  end.

Definition is_refresh_request (ev : event) : bool :=
  match ev with
  | Request TokenRefresh => true
  | _ => false
  end.

Definition is_append_of (r : Row) (ev : event) : bool :=
  match ev with
  | SheetCall (AppendRow r') => String.eqb (row_ts r) (row_ts r')
  | _ => false
  end.

(** *** Numerals *)

(** The groups of digits of a numeral, written with the separator [sep]
    between them ([""] for the plain numeral). *)
Fixpoint join_groups (sep : string) (groups : list string) : string :=
  match groups with
  | [] => ""
  | g :: groups' =>
      match groups' with
      | [] => g
      | _ => g +:+ sep +:+ join_groups sep groups'
      end
  end.

(** A group of a numeral: decimal digits, one at least. *)
Definition digit_group (g : string) : Prop := g ≠ "" ∧ all_digits g = true.

(** The number a text of decimal digits denotes. *)
Fixpoint numeral_from (acc : Z) (s : string) : Z :=
  match s with
  | EmptyString => acc
  | String c s' => numeral_from (10 * acc + default 0 (digit_value c)) s'
  end.

Definition numeral (s : string) : Z := numeral_from 0 s.

(** A character of a timestamp label other than its blank. *)
Definition label_char (c : ascii) : bool :=
  is_digit c || Ascii.eqb c "-" || Ascii.eqb c ":".

(** *** The session *)

(** The session is valid for everything the world [W] does: both tokens
    are set and the lease outlasts the clock. *)
Definition session_valid (W : World) (s : State) : Prop :=
  truthy (access_token (auth s)) = true ∧
  truthy (refresh_token (auth s)) = true ∧
  ∀ i, clock W i ≤ token_expiry (auth s).

(** The results endpoint of [W] answers 401 whenever it is asked, its
    refresh endpoint renews both tokens, and its clock stays within one
    lease. *)
Definition always_expired (W : World) : Prop :=
  (∀ i, ∃ p, http W i PollResults = Reply 401 p) ∧
  (∀ i, ∃ j, http W i TokenRefresh = Reply 200 (Object j) ∧
             truthy (accessToken j) = true ∧ truthy (refreshToken j) = true) ∧
  (∀ i j, clock W j ≤ clock W i + lease).

(** *** The tick *)

(** What the tick obtains from the results endpoint and lets through its
    test [if results:]. *)
Definition tick_results (W : World) (s : State) : option json :=
  match outcome (fetch_poll_metadata W ;; fetch_poll_results W) s with
  | Val r => usable r
  | Raise _ => None
  end.

(** *** The tracked pair and the velocity *)

(** Both tracked names are among the trimmed names of the candidates. *)
Definition both_tracked_present (cands : list Candidate) : Prop :=
  ∃ c1 c2, c1 ∈ cands ∧ c2 ∈ cands ∧
           strip (cand_name c1) = "T1 Doran" ∧
           strip (cand_name c2) = "Hanwha Life Esports Gumayusi".

(** One step of the construction of the dictionary of tracked votes. *)
Definition tracked_step (m : gmap string Z) (c : Candidate) : gmap string Z :=
  if bool_decide (strip (cand_name c) ∈ TRACK_NAMES)
  then <[strip (cand_name c) := cand_votes c]> m else m.

(** The votes of the last candidate of the given name, if there is one:
    what the dictionary built from the list holds for the name. *)
Definition previous_votes (name : string) (cands : list Candidate) : option Z :=
  cand_votes <$> last (filter (λ c, cand_name c = name) cands).

(** *** The writer and the spreadsheet *)

(** What [_gsheet_last_row_same_minute] answers on a connected client whose
    handle counts [n] rows, when no call fails on the side of the service:
    [n] is two at least and within the grid [g], the first cell of row [n]
    and the new label both have text, and the two minutes are the same. *)
Definition row_same_minute (g : list (list string)) (n : nat) (ts : string) : bool :=
  if (n <? 2)%nat then false
  else if (length g <? n)%nat then false
  else
    let last_ts := strip (default "" (cell_value g n 1)) in
    if negb (nonempty last_ts) || negb (nonempty ts) then false
    else String.eqb (minute_key last_ts) (minute_key ts).

(** The same, for a handle whose row count is the size of the grid. *)
Definition last_row_same_minute (g : list (list string)) (ts : string) : bool :=
  row_same_minute g (length g) ts.

(** The end of a pass that appended a row: the formatting request and the
    update of the marker. *)
Definition after_append (W : World) (g : GSheet) : M unit :=
  sheet_call W (BatchFormat (gsheet_row_counter g)) ;;
  if gsheet_throttle g then
    try_ (t <- now_us W ;; update_throttle W (py_str (t / 10 ^ 6)))
         (λ _, ret tt)
  else ret tt.

(** *** The day rollover and the recovery *)

(** The Korean calendar day a check made in the state [s] reads. *)
Definition today_kst (W : World) (s : State) : string :=
  date_label KST_TZ (clock W (length (trace s))).

(** The fact a check made in the state [s] stores in [_prev_day_data], if
    it stores one. *)
Definition emitted_fact (W : World) (s : State) : option PrevDay :=
  match prev_day_kst_date s with
  | Some date =>
      if String.eqb (today_kst W s) date then None
      else rollover_fact date (cd_candidates (current_data s))
  | None => None
  end.

(** The states in which the later checks of a process run.  Between two
    checks the rest of the program may change anything but the stored
    date, which the recovery at start-up and the check alone assign. *)
Inductive checks_from (W : World) : State → list State → Prop :=
| checks_done s : checks_from W s []
| checks_next s b rest :
    prev_day_kst_date b = prev_day_kst_date s →
    checks_from W (after (_check_day_change W) b) rest →
    checks_from W s (b :: rest).

(** [a] has as many votes as [b] at least: the order of the sorted list. *)
Definition votes_ge (a b : Candidate) : Prop := cand_votes b ≤ cand_votes a.

(** [n] calls of the recovery, one after the other. *)
Fixpoint recoveries (W : World) (n : nat) : M unit :=
  match n with
  | O => ret tt
  | S n' => _load_prev_day_from_gsheet W ;; recoveries W n'
  end.

(** ** Worlds and states of the examples *)

(** 2026-02-25 16:29:30 in Vietnam, and 2026-02-25 00:30:00 in Korea. *)
Definition feb25_162930 : Z := 1772011770 * 10 ^ 6.
Definition feb25_kst : Z := 1771947000 * 10 ^ 6.

(** A local process whose clock reads [t] all along, whose requests are
    answered by [reply] and whose spreadsheet and file calls fail as
    [fail] says. *)
Definition world_at (t : Z) (reply : nat → endpoint → reply)
    (fail : nat → event → option exn) : World :=
  {| IS_VERCEL := false; ENABLE_VERCEL_GSHEET_WRITE := true;
     FETCH_INTERVAL := 3; WRITE_INTERVAL := 60; GOOGLE_CREDS_FILE := true;
     spare_frames := 900; clock := λ _, t; http := reply; failure := fail |}.

(** A serverless process without credentials for the spreadsheet. *)
Definition world_without_credentials (t : Z) : World :=
  {| IS_VERCEL := true; ENABLE_VERCEL_GSHEET_WRITE := true;
     FETCH_INTERVAL := 5; WRITE_INTERVAL := 60; GOOGLE_CREDS_FILE := false;
     spare_frames := 900; clock := λ _, t;
     http := λ _ _, NoReply (Exn Failure "connection refused");
     failure := λ _ _, None |}.

Definition no_reply : nat → endpoint → reply :=
  λ _ _, NoReply (Exn Failure "connection refused").

Definition no_failure : nat → event → option exn := λ _ _, None.

(** A spreadsheet or file call fails with [e] when it is made at the
    position [n] of the trace, and no other call fails. *)
Definition fails_at (n : nat) (e : exn) : nat → event → option exn :=
  λ i _, if (i =? n)%nat then Some e else None.

(** The write quota, and the read quota, of the spreadsheet service is
    exhausted. *)
Definition rate_limited : exn :=
  Exn Failure "APIError: [429]: Quota exceeded for quota metric 'Write requests'".

Definition read_limited : exn :=
  Exn Failure "APIError: [429]: Quota exceeded for quota metric 'Read requests'".

(** What the login, authorize, token and refresh endpoints answer. *)
Definition tokens_json : json :=
  {| accessToken := Some "access"; refreshToken := Some "refresh"; code := Some "code";
     title := None; body := None; mainImage := None; questionOptionResults := None;
     other_keys := false |}.

Definition option_of (name : string) (votes : Z) : option_result :=
  {| questionOptionId := Some name; content := Some name; images := None;
     numberOfSelectors := Some votes |}.

Definition results_json (opts : list option_result) : json :=
  {| accessToken := None; refreshToken := None; code := None; title := None;
     body := None; mainImage := None; questionOptionResults := Some opts;
     other_keys := false |}.

(** A results payload with the two tracked candidates. *)
Definition pair_results (doran guma : Z) : json :=
  results_json [option_of "T1 Doran" doran; option_of "Hanwha Life Esports Gumayusi" guma].

(** An upstream that answers 200 everywhere, except that the results
    endpoint answers 401 to a request made before the position [n] of the
    trace. *)
Definition expired_before (n : nat) (results : json) : nat → endpoint → reply :=
  λ i e, match e with
         | PollResults => if (i <? n)%nat then Reply 401 NotJson else Reply 200 (Object results)
         | _ => Reply 200 (Object tokens_json)
         end.

(** An upstream whose results endpoint answers 401 to every request. *)
Definition expired_forever : nat → endpoint → reply :=
  λ _ e, match e with
         | PollResults => Reply 401 NotJson
         | _ => Reply 200 (Object tokens_json)
         end.

(** A spreadsheet that holds its header only. *)
Definition empty_remote : Remote := {| sheet1 := [header_cells]; throttle_a1 := None |}.

(** A process that is logged in, the lease running from [t]. *)
Definition logged_in (t : Z) : State :=
  set_auth {| access_token := Some "access"; refresh_token := Some "refresh";
              token_expiry := t + lease |}
    (initial_state empty_remote None).

(** A candidate with the given name and votes. *)
Definition candidate (name : string) (votes : Z) : Candidate :=
  {| cand_id := ""; cand_name := name; cand_image := ""; cand_votes := votes |}.

(** A tracker that stored the day 2026-02-24, with the given candidates. *)
Definition tracking_feb24 (cands : list Candidate) : State :=
  set_prev_day_kst_date (Some "2026-02-24")
    (set_current_data
       {| poll_title := ""; poll_body := ""; poll_image := ""; cd_candidates := cands;
          total_votes := sum_votes cands; last_updated := None; error := None |}
       (initial_state empty_remote None)).

(** A process with two snapshots, taken at [t_prev] and [t_latest], in
    which the one candidate went from [before] to [now] votes. *)
Definition two_snapshots (t_prev t_latest before now : Z) : State :=
  let snap t v := {| timestamp := t; candidates := [candidate "T1 Doran" v]; total := v |} in
  set_vote_history [snap t_prev before; snap t_latest now]
    (set_current_data
       {| poll_title := ""; poll_body := ""; poll_image := "";
          cd_candidates := [candidate "T1 Doran" now]; total_votes := now;
          last_updated := Some t_latest; error := None |}
       (initial_state empty_remote None)).

(** A process whose spreadsheet client is connected, with [queue] waiting
    and the sheet holding [rows] under its header. *)
Definition connected (rows : list (list string)) (queue : list Row) : State :=
  set_gs {| gsheet := true; gsheet_rows := S (length rows); gsheet_throttle := true;
            gsheet_initialized := true;
            gsheet_row_counter := S (length rows); gsheet_queue := queue |}
    (initial_state {| sheet1 := header_cells :: rows; throttle_a1 := Some "0" |} None).

(** The grid of a sheet of [size] rows that holds [rows] under its header,
    the rows after them blank. *)
Definition grid_of (size : nat) (rows : list (list string)) : list (list string) :=
  header_cells :: rows ++ replicate (size - S (length rows)) [].

(** A process whose spreadsheet client is connected to such a sheet, with
    [queue] waiting. *)
Definition connected_to (size : nat) (rows : list (list string)) (queue : list Row) : State :=
  set_gs {| gsheet := true; gsheet_rows := length (grid_of size rows);
            gsheet_throttle := true; gsheet_initialized := true;
            gsheet_row_counter := S (length rows); gsheet_queue := queue |}
    (initial_state {| sheet1 := grid_of size rows; throttle_a1 := Some "0" |} None).

(** The row the program builds at the instant [t] for the given votes. *)
Definition row_at (t : Z) (doran guma : Z) : Row :=
  {| row_ts := timestamp_label VN_TZ t; row_doran := doran; row_doran_diff := 0;
     row_guma := guma; row_guma_diff := 0; row_gap := doran - guma |}.

(** The two rows of the specification's example of one minute, 16:29:30
    and 16:29:45, and a row of the next minute, 16:30:10. *)
Definition row_162930 : Row := row_at feb25_162930 500 300.
Definition row_162945 : Row := row_at (feb25_162930 + 15 * 10 ^ 6) 510 300.
Definition row_163010 : Row := row_at (feb25_162930 + 40 * 10 ^ 6) 520 300.

(** * Properties *)

(** ** Text *)

Section TextFacts.
Import Text.

Lemma append_cons c s t : String c s +:+ t = String c (s +:+ t).
Proof. reflexivity. Qed.

Lemma append_empty_l t : "" +:+ t = t.
Proof. reflexivity. Qed.

Lemma append_empty_r s : s +:+ "" = s.
Proof. induction s as [|c s IH]; [done|]. by rewrite append_cons, IH. Qed.

Lemma every_app p s1 s2 : every p (s1 +:+ s2) = every p s1 && every p s2.
Proof.
  induction s1 as [|c s1 IH]; [done|].
  rewrite append_cons. simpl. by rewrite IH, andb_assoc.
Qed.

Lemma every_impl (p q : ascii → bool) s :
  (∀ c, p c = true → q c = true) → every p s = true → every q s = true.
Proof.
  intros Hpq. induction s as [|c s IH]; simpl; [done|].
  intros [Hc Hs]%andb_true_iff. rewrite (Hpq _ Hc). by apply IH.
Qed.

Lemma digit_not_space c : is_digit c = true → py_isspace c = false.
Proof.
  unfold is_digit, py_isspace.
  intros [H1 H2]%andb_true_iff.
  apply Nat.leb_le in H1. apply Nat.leb_le in H2.
  apply orb_false_iff; split; apply andb_false_iff.
  - right. apply Nat.leb_gt. lia.
  - right. apply Nat.leb_gt. lia.
Qed.

Lemma digit_not_char c d : is_digit c = true → is_digit d = false → Ascii.eqb c d = false.
Proof.
  intros Hc Hd. destruct (Ascii.eqb_spec c d) as [->|]; [congruence|done].
Qed.

Lemma lstrip_id s : every (λ c, negb (py_isspace c)) s = true → lstrip s = s.
Proof.
  destruct s as [|c s]; simpl; [done|].
  intros [Hc _]%andb_true_iff. by apply negb_true_iff in Hc as ->.
Qed.

Lemma rstrip_id s : every (λ c, negb (py_isspace c)) s = true → rstrip s = s.
Proof.
  induction s as [|c s IH]; simpl; [done|].
  intros [Hc Hs]%andb_true_iff. rewrite (IH Hs).
  apply negb_true_iff in Hc. rewrite Hc. by destruct s.
Qed.

Lemma strip_id s : every (λ c, negb (py_isspace c)) s = true → strip s = s.
Proof. intros H. unfold strip. rewrite (lstrip_id _ H). by apply rstrip_id. Qed.

Lemma remove_id c s : every (λ d, negb (Ascii.eqb c d)) s = true → remove c s = s.
Proof.
  induction s as [|d s IH]; simpl; [done|].
  intros [Hd Hs]%andb_true_iff. apply negb_true_iff in Hd. rewrite Hd.
  by rewrite (IH Hs).
Qed.

Lemma remove_app c s1 s2 : remove c (s1 +:+ s2) = remove c s1 +:+ remove c s2.
Proof.
  induction s1 as [|d s1 IH]; [done|].
  rewrite append_cons. simpl.
  destruct (Ascii.eqb c d); rewrite ?append_cons; by rewrite IH.
Qed.

Lemma every_remove p c s : every p s = true → every p (remove c s) = true.
Proof.
  induction s as [|d s IH]; [done|].
  cbn [every remove]. intros [Hd Hs]%andb_true_iff.
  destruct (Ascii.eqb c d); [by apply IH|].
  cbn [every]. by rewrite Hd, IH.
Qed.

Lemma count_none c s : every (λ d, negb (Ascii.eqb c d)) s = true → count c s = O.
Proof.
  induction s as [|d s IH]; simpl; [done|].
  intros [Hd Hs]%andb_true_iff. apply negb_true_iff in Hd. rewrite Hd. by apply IH.
Qed.

Lemma int_digits_numeral s : ∀ acc prev,
  all_digits s = true → prev = true ∨ s ≠ "" →
  int_digits acc prev s = Some (numeral_from acc s).
Proof.
  induction s as [|c s IH]; intros acc prev Hs Hne; simpl.
  - destruct Hne as [->|]; done.
  - apply andb_true_iff in Hs as [Hc Hs].
    unfold digit_value. rewrite Hc. simpl. apply IH; auto.
Qed.

Lemma digit_count_length s : (digit_count s ≤ String.length s)%nat.
Proof. induction s as [|c s IH]; simpl; [lia|]. destruct (is_digit c); lia. Qed.

Lemma py_int_numeral s :
  s ≠ "" → all_digits s = true → (String.length s ≤ int_max_str_digits)%nat →
  py_int s = Some (numeral s).
Proof.
  intros Hne Hs Hlen. unfold py_int.
  pose proof (digit_count_length s).
  destruct (Nat.ltb_spec int_max_str_digits (digit_count s)); [lia|].
  unfold int_literal.
  rewrite strip_id by (eapply every_impl, Hs; intros c Hc; by rewrite digit_not_space).
  destruct s as [|c r]; [done|].
  pose proof Hs as [Hc _]%andb_true_iff.
  rewrite !(digit_not_char c) by done.
  by apply int_digits_numeral; [|right].
Qed.

End TextFacts.

(** ** The labels of the rows *)

Section Labels.
Import Text.

Lemma digit_char_is_digit n : is_digit (ascii_of_nat (48 + Z.to_nat (n mod 10))) = true.
Proof.
  assert (H : (Z.to_nat (n mod 10) < 10)%nat).
  { pose proof (Z.mod_pos_bound n 10). lia. }
  destruct (Z.to_nat (n mod 10)) as [|k]; [done|].
  do 9 (destruct k as [|k]; [done|]). lia.
Qed.

Lemma digits_of_digits fuel : ∀ n acc,
  all_digits acc = true → all_digits (digits_of fuel n acc) = true.
Proof.
  induction fuel as [|fuel IH]; intros n acc Hacc; simpl; [done|].
  assert (all_digits (String (ascii_of_nat (48 + Z.to_nat (n mod 10))) acc) = true).
  { unfold all_digits. cbn [every]. by rewrite digit_char_is_digit. }
  destruct (n <? 10); [done|]. by apply IH.
Qed.

Lemma digits_of_nonempty fuel : ∀ n acc, acc ≠ "" → digits_of fuel n acc ≠ "".
Proof.
  induction fuel as [|fuel IH]; intros n acc Hacc; simpl; [done|].
  destruct (n <? 10); [done|]. by apply IH.
Qed.

Lemma str_nonneg_digits n : str_nonneg n ≠ "" ∧ all_digits (str_nonneg n) = true.
Proof.
  unfold str_nonneg. split; [|by apply digits_of_digits].
  simpl. destruct (n <? 10); [done|]. by apply digits_of_nonempty.
Qed.

Lemma pad2_digits n : pad2 n ≠ "" ∧ all_digits (pad2 n) = true.
Proof.
  destruct (str_nonneg_digits n) as [Hne Hd]. unfold pad2.
  destruct (n <? 10); [|done]. split; [done|].
  unfold all_digits in *. cbn [every]. by rewrite Hd.
Qed.

Lemma pad4_digits n : pad4 n ≠ "" ∧ all_digits (pad4 n) = true.
Proof.
  destruct (str_nonneg_digits n) as [Hne Hd]. unfold pad4.
  unfold all_digits in *.
  repeat (destruct (n <? _); [split; [done|]; rewrite every_app; by rewrite Hd|]).
  done.
Qed.

Lemma label_char_not_space c : label_char c = true → negb (py_isspace c) = true.
Proof.
  unfold label_char. intros [[H|H]%orb_true_iff|H]%orb_true_iff.
  - by rewrite digit_not_space.
  - by apply Ascii.eqb_eq in H as ->.
  - by apply Ascii.eqb_eq in H as ->.
Qed.

Lemma digits_label_chars s : all_digits s = true → every label_char s = true.
Proof. apply every_impl. intros c Hc. unfold label_char. by rewrite Hc. Qed.

Lemma rstrip_app s t :
  t ≠ "" → every (λ c, negb (py_isspace c)) t = true → rstrip (s +:+ t) = s +:+ t.
Proof.
  intros Hne Ht. induction s as [|c s IH].
  - by apply rstrip_id.
  - rewrite append_cons. cbn [rstrip]. rewrite IH.
    destruct (s +:+ t) eqn:E; [|done].
    destruct s; [|done]. by rewrite append_empty_l in E.
Qed.

Lemma append_nonempty_r s t : t ≠ "" → s +:+ t ≠ "".
Proof. intros Ht. destruct s; [done|]. by rewrite append_cons. Qed.

Lemma append_assoc (s t u : string) : (s +:+ t) +:+ u = s +:+ t +:+ u.
Proof.
  induction s as [|c s IH]; [done|]. by rewrite !append_cons, IH.
Qed.

(** A label the program builds is not empty and has no blank at either
    end: trimming leaves it as it is. *)
Lemma timestamp_label_clean tz us :
  timestamp_label tz us ≠ "" ∧ strip (timestamp_label tz us) = timestamp_label tz us.
Proof.
  unfold timestamp_label, date_of_seconds, time_of_seconds.
  set (s := local_seconds tz us).
  destruct (civil_from_days (s / 86400)) as [[y m] d].
  destruct (pad4_digits y) as [Hy1 Hy2].
  destruct (pad2_digits ((s mod 86400) / 3600)) as [Hh1 Hh2].
  destruct (pad2_digits (((s mod 86400) mod 3600) / 60)) as [_ Hm2].
  destruct (pad2_digits ((s mod 86400) mod 60)) as [_ Hs2].
  set (time := pad2 _ +:+ ":" +:+ pad2 _ +:+ ":" +:+ pad2 _).
  assert (Htime : time ≠ "" ∧ every (λ c, negb (py_isspace c)) time = true).
  { subst time. split.
    - destruct (pad2 ((s mod 86400) / 3600)); [done|]. by rewrite append_cons.
    - eapply every_impl; [apply label_char_not_space|].
      rewrite !every_app.
      by rewrite (digits_label_chars _ Hh2), (digits_label_chars _ Hm2),
                 (digits_label_chars _ Hs2). }
  destruct Htime as [Ht1 Ht2].
  rewrite <- !append_assoc.
  split; [by apply append_nonempty_r|].
  unfold strip.
  assert (Hl : ∀ rest, lstrip (pad4 y +:+ rest) = pad4 y +:+ rest).
  { intros rest. destruct (pad4 y) as [|c p]; [done|].
    rewrite append_cons. cbn [lstrip].
    apply andb_true_iff in Hy2 as [Hc _]. by rewrite (digit_not_space c). }
  rewrite !append_assoc, Hl. rewrite <- !append_assoc. by apply rstrip_app.
Qed.

End Labels.

(** ** [parse_int] *)

Section ParseInt.
Import Text.

Lemma every_join p sep groups :
  every p sep = true → Forall (λ g, every p g = true) groups →
  every p (join_groups sep groups) = true.
Proof.
  intros Hsep. induction 1 as [|g groups Hg Hgs IH]; simpl; [done|].
  destruct groups; [done|].
  rewrite !every_app, Hg, Hsep. by rewrite IH.
Qed.

Lemma join_plain_app g groups :
  join_groups "" (g :: groups) = g +:+ join_groups "" groups.
Proof. destruct groups; cbn [join_groups]; [by rewrite append_empty_r|done]. Qed.

Lemma remove_join c groups :
  Forall (λ g, every (λ d, negb (Ascii.eqb c d)) g = true) groups →
  remove c (join_groups (String c "") groups) = join_groups "" groups.
Proof.
  induction 1 as [|g groups Hg Hgs IH]; [done|].
  rewrite join_plain_app. simpl. destruct groups as [|g' groups].
  - rewrite append_empty_r. by apply remove_id.
  - rewrite !remove_app, IH, remove_id by done. simpl.
    by rewrite Ascii.eqb_refl.
Qed.

Lemma join_plain_digits groups :
  groups ≠ [] → Forall digit_group groups →
  join_groups "" groups ≠ "" ∧ all_digits (join_groups "" groups) = true.
Proof.
  intros Hne Hall. split.
  - destruct Hall as [|g groups [Hg _] _]; [done|].
    rewrite join_plain_app. by destruct g.
  - apply every_join; [done|]. eapply Forall_impl; [exact Hall|]. by intros g [_ Hg].
Qed.

Lemma parse_int_dots s :
  every (λ c, is_digit c || Ascii.eqb c ".") s = true →
  parse_int s = py_int (remove "." s).
Proof.
  intros Hs. unfold parse_int.
  assert (Hcomma : every (λ d, negb (Ascii.eqb "," d)) s = true).
  { eapply every_impl, Hs. intros c [Hc|Hc]%orb_true_iff.
    - apply negb_true_iff. rewrite Ascii.eqb_sym. by apply digit_not_char.
    - apply Ascii.eqb_eq in Hc as ->. done. }
  rewrite strip_id.
  2:{ eapply every_impl, Hs. intros c [Hc|Hc]%orb_true_iff.
      - by rewrite digit_not_space.
      - apply Ascii.eqb_eq in Hc as ->. done. }
  destruct (1 <? count "." s)%nat; [done|].
  unfold has_char at 2. rewrite (count_none "," s Hcomma). simpl.
  rewrite andb_false_r. by rewrite (remove_id "," s Hcomma).
Qed.

Lemma parse_int_commas s :
  every (λ c, is_digit c || Ascii.eqb c ",") s = true →
  parse_int s = py_int (remove "," s).
Proof.
  intros Hs. unfold parse_int.
  assert (Hdot : every (λ d, negb (Ascii.eqb "." d)) s = true).
  { eapply every_impl, Hs. intros c [Hc|Hc]%orb_true_iff.
    - apply negb_true_iff. rewrite Ascii.eqb_sym. by apply digit_not_char.
    - apply Ascii.eqb_eq in Hc as ->. done. }
  rewrite strip_id.
  2:{ eapply every_impl, Hs. intros c [Hc|Hc]%orb_true_iff.
      - by rewrite digit_not_space.
      - apply Ascii.eqb_eq in Hc as ->. done. }
  rewrite (count_none "." s Hdot). simpl.
  unfold has_char. rewrite (count_none "." s Hdot). simpl.
  apply f_equal. by apply remove_id, every_remove.
Qed.

Lemma digit_groups_free (c : ascii) groups :
  is_digit c = false → Forall digit_group groups →
  Forall (λ g, every (λ d, negb (Ascii.eqb c d)) g = true) groups.
Proof.
  intros Hc Hall. eapply Forall_impl; [exact Hall|].
  intros g [_ Hg]. eapply every_impl, Hg.
  intros d Hd. apply negb_true_iff. rewrite Ascii.eqb_sym. by apply digit_not_char.
Qed.

Lemma digit_groups_every (p : ascii → bool) groups :
  (∀ c, is_digit c = true → p c = true) → Forall digit_group groups →
  Forall (λ g, every p g = true) groups.
Proof.
  intros Hp Hall. eapply Forall_impl; [exact Hall|].
  intros g [_ Hg]. by eapply every_impl, Hg.
Qed.

(** C7.  A numeral written in groups of digits, of no more digits than
    the interpreter converts, parses to the same integer, the value of its
    digits, whether the groups are separated by commas, by dots or not at
    all; so do the three texts of the specification. *)
Theorem parse_int_thousands_separators :
  (∀ groups, groups ≠ [] → Forall digit_group groups →
     (String.length (join_groups "" groups) ≤ int_max_str_digits)%nat →
     parse_int (join_groups "," groups) = Some (numeral (join_groups "" groups)) ∧
     parse_int (join_groups "." groups) = Some (numeral (join_groups "" groups)) ∧
     parse_int (join_groups "" groups) = Some (numeral (join_groups "" groups))) ∧
  parse_int "2,596,698" = Some 2596698 ∧
  parse_int "2.596.698" = Some 2596698 ∧
  parse_int "2596698" = Some 2596698.
Proof.
  split; [|by vm_compute].
  intros groups Hne Hall Hlen.
  destruct (join_plain_digits groups Hne Hall) as [Hplain Hdigits].
  repeat split.
  - rewrite parse_int_commas.
    + rewrite (remove_join "," groups) by by apply digit_groups_free.
      by apply py_int_numeral.
    + apply every_join; [done|]. apply digit_groups_every; [|done].
      intros c ->. done.
  - rewrite parse_int_dots.
    + rewrite (remove_join "." groups) by by apply digit_groups_free.
      by apply py_int_numeral.
    + apply every_join; [done|]. apply digit_groups_every; [|done].
      intros c ->. done.
  - rewrite parse_int_dots.
    + rewrite remove_id; [by apply py_int_numeral|].
      eapply every_impl, Hdigits. intros d Hd. apply negb_true_iff.
      rewrite Ascii.eqb_sym. by apply digit_not_char.
    + eapply every_impl, Hdigits. by intros c ->.
Qed.

(** The groups 2, 596 and 698 of the specification's example. *)
Lemma parse_int_thousands_separators_witness :
  parse_int "2,596,698" = Some (numeral "2596698") ∧
  parse_int "2.596.698" = Some (numeral "2596698") ∧
  parse_int "2596698" = Some (numeral "2596698").
Proof.
  apply (proj1 parse_int_thousands_separators ["2"; "596"; "698"]).
  - discriminate.
  - repeat constructor; vm_compute; discriminate.
  - apply Nat.leb_le. reflexivity.
Defined.

End ParseInt.

(** ** The day rollover *)

Section Rollover.

Lemma insert_by_votes_perm c l : insert_by_votes c l ≡ₚ c :: l.
Proof.
  induction l as [|x l IH]; simpl; [done|].
  destruct (cand_votes c <? cand_votes x); [|done].
  rewrite IH. apply Permutation_swap.
Qed.

Lemma sorted_by_votes_perm l : sorted_by_votes l ≡ₚ l.
Proof.
  induction l as [|c l IH]; simpl; [done|].
  rewrite insert_by_votes_perm. by rewrite IH.
Qed.

Lemma insert_by_votes_sorted c l :
  StronglySorted votes_ge l → StronglySorted votes_ge (insert_by_votes c l).
Proof.
  induction 1 as [|x l Hl IH Hx]; simpl.
  - repeat constructor.
  - destruct (Z.ltb_spec (cand_votes c) (cand_votes x)) as [Hlt|Hge].
    + constructor; [done|].
      rewrite insert_by_votes_perm. constructor; [unfold votes_ge; lia|done].
    + constructor; [by constructor|].
      constructor; [done|].
      eapply Forall_impl; [exact Hx|]. unfold votes_ge. intros y Hy. lia.
Qed.

Lemma sorted_by_votes_sorted l : StronglySorted votes_ge (sorted_by_votes l).
Proof.
  induction l as [|c l IH]; simpl; [constructor|]. by apply insert_by_votes_sorted.
Qed.

(** The sort is stable: the candidates of any given count of votes come in
    the order of the list. *)
Lemma insert_by_votes_stable v c l :
  filter (λ x, cand_votes x = v) (insert_by_votes c l)
  = filter (λ x, cand_votes x = v) (c :: l).
Proof.
  induction l as [|x l IH]; simpl; [done|].
  destruct (Z.ltb_spec (cand_votes c) (cand_votes x)) as [Hlt|Hge]; [|done].
  rewrite (filter_cons _ x), IH, !filter_cons.
  repeat case_decide; try done; lia.
Qed.

Lemma sorted_by_votes_stable v l :
  filter (λ x, cand_votes x = v) (sorted_by_votes l) = filter (λ x, cand_votes x = v) l.
Proof.
  induction l as [|c l IH]; simpl; [done|].
  rewrite insert_by_votes_stable, !filter_cons. by rewrite IH.
Qed.

Lemma sorted_by_votes_nil l : sorted_by_votes l = [] → l = [].
Proof.
  intros H. apply Permutation_nil_r. rewrite <- H. by rewrite sorted_by_votes_perm.
Qed.

Lemma rollover_fact_none date cands : rollover_fact date cands = None ↔ cands = [].
Proof.
  unfold rollover_fact. split.
  - destruct (sorted_by_votes cands) eqn:E; [|done]. intros _. by apply sorted_by_votes_nil.
  - by intros ->.
Qed.

Lemma rollover_fact_date date cands f :
  rollover_fact date cands = Some f → pd_date f = Some date.
Proof.
  unfold rollover_fact. destruct (sorted_by_votes cands); [done|].
  by intros [= <-].
Qed.

(** The check, in closed form. *)
Lemma check_day_change_eq W s :
  _check_day_change W s =
  (Val tt,
   match prev_day_kst_date s with
   | None => set_prev_day_kst_date (Some (today_kst W s)) s
   | Some date =>
       if String.eqb (today_kst W s) date then s
       else set_prev_day_kst_date (Some (today_kst W s))
              (match emitted_fact W s with
               | Some fact => set_prev_day_data fact s
               | None => s
               end)
   end).
Proof.
  unfold _check_day_change, emitted_fact, today_kst, bind, gets, now_us, modify. simpl.
  destruct (prev_day_kst_date s) as [date|]; [|done].
  destruct (String.eqb _ date); simpl; [done|].
  by destruct (rollover_fact date _).
Qed.

Lemma check_day_change_stored W s :
  prev_day_kst_date (after (_check_day_change W) s) = Some (today_kst W s).
Proof.
  unfold after. rewrite check_day_change_eq. cbn [snd].
  destruct (prev_day_kst_date s) as [date|] eqn:E; [|done].
  destruct (String.eqb_spec (today_kst W s) date) as [Heq|]; [by rewrite Heq|].
  by destruct (emitted_fact W s).
Qed.

Lemma check_day_change_data W s :
  prev_day_data (after (_check_day_change W) s)
  = default (prev_day_data s) (emitted_fact W s).
Proof.
  unfold after. rewrite check_day_change_eq. unfold emitted_fact. cbn [snd].
  destruct (prev_day_kst_date s) as [date|] eqn:E; [|done].
  destruct (String.eqb_spec (today_kst W s) date) as [Heq|]; [done|].
  by destruct (rollover_fact date _).
Qed.

(** C6, as amended.  The first check stores today's date and no fact.  A
    later check made on another day than the stored one, with candidates,
    stores a fact for the stored day: the winner is the head of the
    candidates sorted by votes, highest first and ties in the order of the
    list; the runner-up is the next one, or "N/A" with 0 votes when there
    is one candidate only; then the stored date becomes today.  With the
    day 2026-02-24 stored, a check on 2026-02-25 with A at 500 and B at
    300 stores A, 500, B, 300 and the difference 200. *)
Theorem day_change_fact_for_ended_day W s :
  let s' := after (_check_day_change W) s in
  let cands := cd_candidates (current_data s) in
  (prev_day_kst_date s = None →
     emitted_fact W s = None ∧ prev_day_data s' = prev_day_data s ∧
     prev_day_kst_date s' = Some (today_kst W s)) ∧
  (∀ date, prev_day_kst_date s = Some date → today_kst W s ≠ date → cands ≠ [] →
     ∃ winner others,
       sorted_by_votes cands = winner :: others ∧
       let runnerup := match others with
                       | r :: _ => (cand_name r, cand_votes r)
                       | [] => ("N/A", 0)
                       end in
       let fact := {| pd_date := Some date;
                      pd_winner := Some (cand_name winner);
                      pd_winner_votes := cand_votes winner;
                      pd_runnerup := Some runnerup.1;
                      pd_runnerup_votes := runnerup.2;
                      pd_diff := cand_votes winner - runnerup.2;
                      pd_loaded := true |} in
       emitted_fact W s = Some fact ∧ prev_day_data s' = fact ∧
       prev_day_kst_date s' = Some (today_kst W s)) ∧
  (sorted_by_votes cands ≡ₚ cands ∧
   StronglySorted (λ a b, cand_votes b ≤ cand_votes a) (sorted_by_votes cands) ∧
   ∀ v, filter (λ c, cand_votes c = v) (sorted_by_votes cands)
        = filter (λ c, cand_votes c = v) cands) ∧
  (prev_day_kst_date s = Some "2026-02-24" → today_kst W s = "2026-02-25" →
   cands = [candidate "A" 500; candidate "B" 300] →
   prev_day_data s' =
     {| pd_date := Some "2026-02-24"; pd_winner := Some "A"; pd_winner_votes := 500;
        pd_runnerup := Some "B"; pd_runnerup_votes := 300; pd_diff := 200;
        pd_loaded := true |}).
Proof.
  intros s' cands. subst s'. rewrite check_day_change_stored, check_day_change_data.
  split; [|split; [|split]].
  - intros H. unfold emitted_fact. by rewrite H.
  - intros date Hd Hne Hc.
    destruct (sorted_by_votes cands) as [|winner others] eqn:E.
    { by apply sorted_by_votes_nil in E. }
    exists winner, others. split; [done|].
    assert (emitted_fact W s = rollover_fact date cands) as ->.
    { unfold emitted_fact. rewrite Hd.
      by destruct (String.eqb_spec (today_kst W s) date). }
    unfold rollover_fact. fold cands. by rewrite E.
  - split; [apply sorted_by_votes_perm|].
    split; [apply sorted_by_votes_sorted|]. intros v. apply sorted_by_votes_stable.
  - intros Hd Ht Hc. unfold emitted_fact. rewrite Hd, Ht. fold cands. by rewrite Hc.
Qed.

(** The example of the specification, on a check made at 00:30 Korean time
    on 2026-02-25. *)
Lemma day_change_fact_for_ended_day_witness :
  prev_day_data
    (after (_check_day_change (world_at feb25_kst no_reply no_failure))
           (tracking_feb24 [candidate "A" 500; candidate "B" 300])) =
  {| pd_date := Some "2026-02-24"; pd_winner := Some "A"; pd_winner_votes := 500;
     pd_runnerup := Some "B"; pd_runnerup_votes := 300; pd_diff := 200;
     pd_loaded := true |}.
Proof.
  apply (day_change_fact_for_ended_day (world_at feb25_kst no_reply no_failure)
           (tracking_feb24 [candidate "A" 500; candidate "B" 300])).
  - reflexivity.
  - vm_compute. reflexivity.
  - reflexivity.
Defined.

(** The claim as it stands fails without candidates: the day changed, and
    no fact is stored. *)
Lemma day_change_without_candidates_counterexample :
  let W := world_at feb25_kst no_reply no_failure in
  let s := tracking_feb24 [] in
  prev_day_kst_date s = Some "2026-02-24" ∧ today_kst W s = "2026-02-25" ∧
  emitted_fact W s = None ∧
  prev_day_data (after (_check_day_change W) s) = no_prev_day.
Proof. by vm_compute. Qed.

(** C9.  A check that finds the day changed while there is no candidate
    stores no fact and still advances the stored date; after it no check
    made on another day than the one that ended stores a fact for that
    day. *)
Theorem rollover_without_candidates_loses_the_day W s date :
  prev_day_kst_date s = Some date →
  today_kst W s ≠ date →
  cd_candidates (current_data s) = [] →
  let s' := after (_check_day_change W) s in
  emitted_fact W s = None ∧
  prev_day_data s' = prev_day_data s ∧
  prev_day_kst_date s' = Some (today_kst W s) ∧
  ∀ later, checks_from W s' later →
    Forall (λ b, today_kst W b ≠ date) later →
    Forall (λ b, ∀ fact, emitted_fact W b = Some fact → pd_date fact ≠ Some date) later.
Proof.
  intros Hd Hne Hc s'. subst s'.
  assert (He : emitted_fact W s = None).
  { unfold emitted_fact. rewrite Hd, Hc.
    by destruct (String.eqb (today_kst W s) date). }
  rewrite check_day_change_stored, check_day_change_data, He.
  repeat split; [done..|].
  assert (Hinv : prev_day_kst_date (after (_check_day_change W) s) ≠ Some date).
  { rewrite check_day_change_stored. congruence. }
  intros later Hrun. revert Hinv.
  induction Hrun as [|s0 b rest Hsame Hrun IH]; intros Hinv Hdays; [constructor|].
  apply Forall_cons in Hdays as [Hb Hrest].
  constructor.
  - intros fact. unfold emitted_fact.
    destruct (prev_day_kst_date b) as [d|] eqn:Eb; [|done].
    destruct (String.eqb _ d); [done|].
    intros Hf%rollover_fact_date. rewrite Hf. congruence.
  - apply IH; [|done]. rewrite check_day_change_stored. congruence.
Qed.

(** A tracker that stored 2026-02-24 and is checked at 00:30 Korean time
    on 2026-02-25 before any candidate is known. *)
Lemma rollover_without_candidates_loses_the_day_witness :
  let W := world_at feb25_kst no_reply no_failure in
  let s := tracking_feb24 [] in
  let s' := after (_check_day_change W) s in
  emitted_fact W s = None ∧
  prev_day_data s' = prev_day_data s ∧
  prev_day_kst_date s' = Some "2026-02-25" ∧
  ∀ later, checks_from W s' later →
    Forall (λ b, today_kst W b ≠ "2026-02-24") later →
    Forall (λ b, ∀ fact, emitted_fact W b = Some fact → pd_date fact ≠ Some "2026-02-24") later.
Proof.
  apply (rollover_without_candidates_loses_the_day
           (world_at feb25_kst no_reply no_failure) (tracking_feb24 []) "2026-02-24").
  - reflexivity.
  - vm_compute. discriminate.
  - reflexivity.
Defined.

End Rollover.

(** ** Frames of the monad *)

Section Frames.

Context {B : Type} (f : State → B).

Lemma keeps_ret {A} (a : A) : keeps f (ret a).
Proof. by intros s. Qed.

Lemma keeps_raise {A} e : keeps f (raise (A:=A) e).
Proof. by intros s. Qed.

Lemma keeps_gets {A} (g : State → A) : keeps f (gets g).
Proof. by intros s. Qed.

Lemma keeps_lift {A} (r : res A) : keeps f (lift r).
Proof. by intros s. Qed.

Lemma keeps_modify g : (∀ s, f (g s) = f s) → keeps f (modify g).
Proof. intros H s. apply H. Qed.

Lemma keeps_bind {A C} (m : M A) (k : A → M C) :
  keeps f m → (∀ a, keeps f (k a)) → keeps f (bind m k).
Proof.
  intros Hm Hk s. specialize (Hm s). unfold after, bind in *.
  destruct (m s) as [[a|e] s1]; simpl in *; [|done].
  rewrite <- Hm. apply Hk.
Qed.

Lemma keeps_try {A} (m : M A) (h : exn → M A) :
  keeps f m → (∀ e, keeps f (h e)) → keeps f (try_ m h).
Proof.
  intros Hm Hh s. specialize (Hm s). unfold after, try_ in *.
  destruct (m s) as [[a|e] s1]; simpl in *; [done|].
  rewrite <- Hm. apply Hh.
Qed.

Lemma keeps_try_not_found {A} (m h : M A) :
  keeps f m → keeps f h → keeps f (try_not_found m h).
Proof.
  intros Hm Hh s. specialize (Hm s). unfold after, try_not_found in *.
  destruct (m s) as [[a|e] s1]; simpl in *; [done|].
  destruct (is_worksheet_not_found e); [|done].
  rewrite <- Hm. apply Hh.
Qed.

Lemma bind_gets {A C} (g : State → A) (k : A → M C) s : bind (gets g) k s = k (g s) s.
Proof. reflexivity. Qed.

Lemma bind_modify {C} g (k : unit → M C) s : bind (modify g) k s = k tt (g s).
Proof. reflexivity. Qed.

Lemma bind_ret {A C} (a : A) (k : A → M C) s : bind (ret a) k s = k a s.
Proof. reflexivity. Qed.

Lemma keeps_emit ev : (∀ t s, f (set_trace t s) = f s) → keeps f (emit ev).
Proof. intros H s. apply H. Qed.

End Frames.

Section Returns.

Lemma returns_ret {A} (a : A) : never_raises (ret a).
Proof. intros s. by exists a. Qed.

Lemma returns_gets {A} (g : State → A) : never_raises (gets g).
Proof. intros s. by eexists. Qed.

Lemma returns_modify g : never_raises (modify g).
Proof. intros s. by eexists. Qed.

Lemma returns_emit ev : never_raises (emit ev).
Proof. intros s. by eexists. Qed.

Lemma returns_bind {A C} (m : M A) (k : A → M C) :
  never_raises m → (∀ a, never_raises (k a)) → never_raises (bind m k).
Proof.
  intros Hm Hk s. destruct (Hm s) as [a Ha]. unfold outcome, bind in *.
  destruct (m s) as [r s1]. simpl in Ha. subst r. apply Hk.
Qed.

Lemma returns_try {A} (m : M A) (h : exn → M A) :
  (∀ e, never_raises (h e)) → never_raises (try_ m h).
Proof.
  intros Hh s. unfold outcome, try_.
  destruct (m s) as [[a|e] s1]; [by eexists|]. apply Hh.
Qed.

End Returns.

(** One step of a proof that a view is kept: through the operators of the
    monad and the case distinctions of the program. *)
Ltac keeps_step :=
  lazymatch goal with
  | |- keeps _ (bind _ _) => apply keeps_bind; [|intros ?]
  | |- keeps _ (try_ _ _) => apply keeps_try; [|intros ?]
  | |- keeps _ (try_not_found _ _) => apply keeps_try_not_found
  | |- keeps _ (ret _) => apply keeps_ret
  | |- keeps _ (raise _) => apply keeps_raise
  | |- keeps _ (gets _) => apply keeps_gets
  | |- keeps _ (lift _) => apply keeps_lift
  | |- keeps _ (modify _) => apply keeps_modify; intros ?; reflexivity
  | |- keeps _ (emit _) => apply keeps_emit; intros ? ?; reflexivity
  | |- keeps _ (if ?b then _ else _) => destruct b
  | |- keeps _ (match ?x with _ => _ end) => destruct x
  end.

Ltac returns_step :=
  lazymatch goal with
  | |- never_raises (try_ _ _) => apply returns_try; intros ?
  | |- never_raises (bind _ _) => apply returns_bind; [|intros ?]
  | |- never_raises (ret _) => apply returns_ret
  | |- never_raises (gets _) => apply returns_gets
  | |- never_raises (modify _) => apply returns_modify
  | |- never_raises (emit _) => apply returns_emit
  | |- never_raises (if ?b then _ else _) => destruct b
  | |- never_raises (match ?x with _ => _ end) => destruct x
  end.

#[local] Hint Unfold sleep request json_of item sheet_call file_call now_us
  set_current_error modify_gs modify_remote row_count read_cell read_col_values
  read_row_values append_row update_throttle read_throttle int_item : program.

Ltac keeps_tac := repeat (autounfold with program; cbv beta zeta; keeps_step); auto.
Ltac returns_tac := repeat (autounfold with program; cbv beta zeta; returns_step); auto.

(** ** The recovery of the previous day *)

Section Recovery.

Context (W : World).

Lemma init_gsheet_keeps_loaded : keeps prev_day_loaded (_init_gsheet W).
Proof. unfold _init_gsheet. keeps_tac. Qed.

Lemma load_when_loaded s :
  prev_day_loaded s = true → _load_prev_day_from_gsheet W s = (Val tt, s).
Proof.
  intros H. unfold _load_prev_day_from_gsheet, bind, gets. by rewrite H.
Qed.

Lemma load_sets_loaded s : prev_day_loaded (after (_load_prev_day_from_gsheet W) s) = true.
Proof.
  destruct (prev_day_loaded s) eqn:E.
  { unfold after. by rewrite load_when_loaded. }
  unfold after, _load_prev_day_from_gsheet. rewrite bind_gets, E, bind_modify.
  lazymatch goal with
  | |- prev_day_loaded (snd (?m ?s0)) = _ =>
      assert (K : keeps prev_day_loaded m)
        by (pose proof init_gsheet_keeps_loaded; keeps_tac);
      exact (K s0)
  end.
Qed.

Lemma load_returns : never_raises (_load_prev_day_from_gsheet W).
Proof. unfold _load_prev_day_from_gsheet. returns_tac. Qed.

Lemma recoveries_when_loaded n s :
  prev_day_loaded s = true → recoveries W n s = (Val tt, s).
Proof.
  intros H. induction n as [|n IH]; [done|].
  simpl. unfold bind. by rewrite load_when_loaded.
Qed.

End Recovery.

(** C10.  The recovery sets the flag before it tries anything: whatever the
    attempt does, the call returns with the flag set; a call made with the
    flag set does nothing at all, in any world; so after a first call the
    calls that follow change nothing, and a fact that the first attempt
    did not load stays unloaded through them. *)
Theorem recovery_runs_at_most_once W s :
  let s1 := after (_load_prev_day_from_gsheet W) s in
  (∃ u, outcome (_load_prev_day_from_gsheet W) s = Val u) ∧
  prev_day_loaded s1 = true ∧
  (∀ W' s', prev_day_loaded s' = true →
     _load_prev_day_from_gsheet W' s' = (Val tt, s')) ∧
  (∀ W' n, recoveries W' n s1 = (Val tt, s1)) ∧
  (pd_loaded (prev_day_data s1) = false →
   ∀ W' n, pd_loaded (prev_day_data (after (recoveries W' n) s1)) = false).
Proof.
  intros s1.
  assert (H1 : prev_day_loaded s1 = true) by apply load_sets_loaded.
  split; [apply load_returns|]. split; [done|].
  split; [intros W' s'; apply load_when_loaded|].
  split; [intros W' n; by apply recoveries_when_loaded|].
  intros Hf W' n. unfold after. by rewrite recoveries_when_loaded.
Qed.

(** A process without credentials for the spreadsheet: the first attempt
    fails, and no later call loads the fact. *)
Lemma recovery_runs_at_most_once_witness :
  let W := world_without_credentials feb25_kst in
  let s1 := after (_load_prev_day_from_gsheet W) (initial_state empty_remote None) in
  prev_day_loaded s1 = true ∧
  ∀ W' n, pd_loaded (prev_day_data (after (recoveries W' n) s1)) = false.
Proof.
  intros W s1.
  destruct (recovery_runs_at_most_once W (initial_state empty_remote None))
    as (_ & H1 & _ & _ & H4).
  split; [exact H1|]. apply H4. reflexivity.
Defined.

(** ** The retry of [fetch_poll_results] *)

Section Retry.

Lemma count_events_app p t1 t2 :
  count_events p (t1 ++ t2) = (count_events p t1 + count_events p t2)%nat.
Proof.
  induction t1 as [|ev t1 IH]; simpl; [done|].
  destruct (p ev); simpl; by rewrite IH.
Qed.

Context (W : World) (HW : always_expired W).

Lemma ensure_auth_valid s : session_valid W s → ensure_auth W s = (Val true, s).
Proof.
  intros (Ha & _ & Ht). unfold ensure_auth. rewrite !bind_gets. unfold now_us.
  rewrite bind_gets, Ha. simpl.
  destruct (Z.ltb_spec (token_expiry (auth s)) (clock W (length (trace s)))); [|done].
  specialize (Ht (length (trace s))). lia.
Qed.

(** One round: a results request answered 401, then a refresh that
    succeeds and leaves a valid session. *)
Lemma expired_round frames s :
  session_valid W s →
  ∃ s2, session_valid W s2 ∧
        trace s2 = trace s ++ [Request PollResults; Request TokenRefresh] ∧
        fetch_poll_results_rec W (S frames) s
        = try_ (fetch_poll_results_rec W frames) (λ _, ret None) s2.
Proof.
  intros Hs. destruct HW as (H401 & Hrefresh & Hclock).
  destruct (H401 (length (trace s))) as [p Hp].
  destruct (Hrefresh (S (length (trace s)))) as (j & Hj & Hja & Hjr).
  destruct Hs as (Ha & Hr & Ht).
  set (s1 := set_trace (trace s ++ [Request PollResults]) s).
  set (s1' := set_trace (trace s1 ++ [Request TokenRefresh]) s1).
  assert (Hlen : length (trace s1) = S (length (trace s))).
  { subst s1. simpl. rewrite length_app. simpl. lia. }
  set (a2 := {| access_token := match accessToken j with
                                | Some x => Some x
                                | None => access_token (auth s)
                                end;
                refresh_token := match refreshToken j with
                                 | Some x => Some x
                                 | None => refresh_token (auth s)
                                 end;
                token_expiry := clock W (length (trace s1')) + lease |}).
  exists (set_auth a2 s1'). split; [|split].
  - split; [|split]; simpl.
    + by destruct (accessToken j).
    + by destruct (refreshToken j).
    + intros i. apply Hclock.
  - simpl. by rewrite <- app_assoc.
  - cbn [fetch_poll_results_rec]. unfold bind at 1.
    rewrite (ensure_auth_valid s) by done. cbn [negb].
    unfold try_ at 1. unfold bind at 1, request at 1. unfold bind at 1, emit at 1.
    rewrite Hp. unfold ret at 1. cbn [fst snd Z.eqb Pos.eqb].
    unfold bind at 1, try_refresh_token at 1.
    rewrite bind_gets. fold s1. change (auth s1) with (auth s). rewrite Hr. cbn [negb].
    unfold bind at 1, try_ at 1, bind at 1, request at 1, bind at 1, emit at 1.
    rewrite Hlen, Hj. unfold ret at 1. cbn [fst snd Z.eqb Pos.eqb].
    unfold bind at 1, json_of, ret at 1.
    unfold now_us. rewrite bind_gets. rewrite bind_modify. unfold ret at 1.
    fold s1'. change (auth s) with (auth s1'). reflexivity.
Qed.

(** Against an upstream that keeps answering 401 while the refresh keeps
    succeeding, the fetch sends one results request for every activation
    the interpreter admits: nothing in the function bounds the retries. *)
Lemma fetch_poll_results_retries_unbounded frames : ∀ s,
  session_valid W s →
  count_events is_results_request (trace (after (fetch_poll_results_rec W frames) s))
  = (count_events is_results_request (trace s) + frames)%nat.
Proof.
  induction frames as [|frames IH]; intros s Hs.
  - unfold after. simpl. lia.
  - destruct (expired_round frames s Hs) as (s2 & Hs2 & Htrace & Heq).
    unfold after. rewrite Heq. specialize (IH s2 Hs2). unfold after in IH.
    unfold try_. destruct (fetch_poll_results_rec W frames s2) as [[a|e] s3]; simpl in *;
      rewrite IH, Htrace, count_events_app; simpl; lia.
Qed.

End Retry.

(** C1, at the failing input: the results endpoint answers 401 twice and
    then 200.  The tick sends three results requests and two refresh
    requests, and ends with the candidates of the third reply: after the
    retried request met 401 again, the fetch did not give up. *)
Theorem fetch_poll_results_retries_again :
  let W := world_at feb25_162930 (expired_before 9 (pair_results 500 300)) no_failure in
  let s' := after (fetch_poll_data W) (initial_state empty_remote None) in
  count_events is_results_request (trace s') = 3%nat ∧
  count_events is_refresh_request (trace s') = 2%nat ∧
  map cand_votes (cd_candidates (current_data s')) = [500; 300] ∧
  error (current_data s') = None.
Proof. by vm_compute. Qed.

(** The lemma applies: a logged-in process, an upstream that answers 401
    for ever, and room for 901 activations give 901 results requests. *)
Example fetch_poll_results_retries_901_times :
  let W := world_at feb25_162930 expired_forever no_failure in
  count_events is_results_request
    (trace (after (fetch_poll_results W) (logged_in feb25_162930))) = 901%nat.
Proof.
  intros W. unfold fetch_poll_results.
  rewrite (fetch_poll_results_retries_unbounded W).
  - reflexivity.
  - split; [|split].
    + intros i. by exists NotJson.
    + intros i. by exists tokens_json.
    + intros i j. simpl. unfold lease. lia.
  - split; [done|]. split; [done|]. intros i. simpl. unfold lease. lia.
Qed.

(** ** The background writer *)

Section Writer.

Context (W : World).

Lemma after_try {A B} (f : State → B) (m : M A) h s :
  (∀ e, keeps f (h e)) → f (after (try_ m h) s) = f (after m s).
Proof.
  intros Hh. unfold after, try_. destruct (m s) as [[a|e] s1]; [done|]. apply Hh.
Qed.

Lemma same_minute_keeps_queue ts : keeps queue_of (_gsheet_last_row_same_minute W ts).
Proof. unfold _gsheet_last_row_same_minute. keeps_tac. Qed.

(** After it has taken a row from the queue, a pass never puts a row back:
    whatever happens to the row, the queue is left as the rest. *)
Lemma writer_pass_never_requeues s row rest :
  gsheet_initialized (gs s) = true →
  gsheet_queue (gs s) = row :: rest →
  gsheet_queue (gs (after (writer_pass W) s)) = rest.
Proof.
  intros Hinit Hq. unfold writer_pass.
  change (gsheet_queue (gs ?x)) with (queue_of x).
  rewrite (after_try queue_of) by (intros e; keeps_tac).
  unfold after. rewrite bind_gets, Hq, Hinit, bind_ret. cbn [negb].
  rewrite bind_gets, Hq. unfold modify_gs at 1. rewrite bind_modify.
  lazymatch goal with
  | |- queue_of (snd (?m ?s0)) = _ =>
      assert (K : keeps queue_of m)
        by (pose proof same_minute_keeps_queue; keeps_tac);
      exact (K s0)
  end.
Qed.

End Writer.

(** C2, at the failing input: the rows of 16:29:30 and of 16:30:10 wait in
    the queue and the append of the first is refused with a 429.  The pass
    sleeps its 60 seconds, but the row has left the queue and is nowhere
    kept: the next pass takes the second row, and when the queue is empty
    the sheet holds the second row alone and the first was sent once. *)
Theorem writer_pass_drops_rate_limited_row :
  let W := world_at feb25_162930 no_reply (fails_at 0 rate_limited) in
  let s := connected [] [row_162930; row_163010] in
  let s1 := after (writer_pass W) s in
  let s3 := after (_gsheet_writer_thread W 3) s in
  trace s1 = [SheetCall (AppendRow row_162930); Sleep 60000] ∧
  gsheet_queue (gs s1) = [row_163010] ∧
  sheet1 (remote s1) = [header_cells] ∧
  gsheet_queue (gs s3) = [] ∧
  sheet1 (remote s3) = [header_cells; row_cells row_163010] ∧
  count_events (is_append_of row_162930) (trace s3) = 1%nat.
Proof. by vm_compute. Qed.

(** ** The tick whose results are unavailable *)

Section FailedFetch.

Context (W : World).

Lemma run_bind {A C} (m : M A) (k : A → M C) s a s1 :
  m s = (Val a, s1) → bind m k s = k a s1.
Proof. intros H. unfold bind. by rewrite H. Qed.

Lemma authenticate_keeps_data : keeps kept_data (authenticate W).
Proof. unfold authenticate. keeps_tac. Qed.

Lemma ensure_auth_keeps_data : keeps kept_data (ensure_auth W).
Proof. pose proof authenticate_keeps_data. unfold ensure_auth. keeps_tac. Qed.

Lemma try_refresh_token_keeps_data : keeps kept_data (try_refresh_token W).
Proof. pose proof authenticate_keeps_data. unfold try_refresh_token. keeps_tac. Qed.

Lemma fetch_poll_metadata_keeps_data : keeps kept_data (fetch_poll_metadata W).
Proof. unfold fetch_poll_metadata. keeps_tac. Qed.

Lemma fetch_poll_results_rec_keeps_data frames :
  keeps kept_data (fetch_poll_results_rec W frames).
Proof.
  pose proof ensure_auth_keeps_data. pose proof try_refresh_token_keeps_data.
  induction frames as [|frames IH]; cbn [fetch_poll_results_rec]; keeps_tac.
Qed.

Lemma authenticate_returns : never_raises (authenticate W).
Proof. unfold authenticate. returns_tac. Qed.

Lemma fetch_poll_metadata_returns : never_raises (fetch_poll_metadata W).
Proof. unfold fetch_poll_metadata. returns_tac. Qed.

Lemma fetch_poll_results_returns : never_raises (fetch_poll_results W).
Proof.
  pose proof authenticate_returns.
  unfold fetch_poll_results. cbn [fetch_poll_results_rec]. unfold ensure_auth.
  returns_tac.
Qed.

Lemma write_result_file_returns : never_raises (write_result_file W).
Proof. unfold write_result_file. returns_tac. Qed.

Lemma write_google_sheet_returns : never_raises (write_google_sheet W).
Proof. unfold write_google_sheet. returns_tac. Qed.

Lemma gsheet_should_write_returns : never_raises (_gsheet_should_write W).
Proof. unfold _gsheet_should_write. returns_tac. Qed.

Lemma fetch_poll_data_returns : never_raises (fetch_poll_data W).
Proof.
  pose proof fetch_poll_metadata_returns. pose proof fetch_poll_results_returns.
  pose proof write_result_file_returns. pose proof write_google_sheet_returns.
  pose proof gsheet_should_write_returns.
  unfold fetch_poll_data, write_due, should_write. returns_tac.
Qed.

Lemma init_gsheet_keeps_current : keeps current_data (_init_gsheet W).
Proof. unfold _init_gsheet. keeps_tac. Qed.

Lemma same_minute_keeps_current ts :
  keeps current_data (_gsheet_last_row_same_minute W ts).
Proof. unfold _gsheet_last_row_same_minute. keeps_tac. Qed.

Lemma build_row_keeps_current : keeps current_data (build_row W).
Proof. unfold build_row. keeps_tac. Qed.

Lemma write_due_keeps_current now : keeps current_data (write_due W now).
Proof.
  pose proof init_gsheet_keeps_current. pose proof same_minute_keeps_current.
  pose proof build_row_keeps_current.
  unfold write_due, write_result_file, write_google_sheet, _init_xlsx. keeps_tac.
Qed.

Lemma should_write_keeps_current now : keeps current_data (should_write W now).
Proof.
  pose proof init_gsheet_keeps_current.
  unfold should_write, _gsheet_should_write. keeps_tac.
Qed.

End FailedFetch.

(** C8.  The tick raises nothing.  When the results are unavailable it
    leaves the history, the title, body and image, the candidates, the
    total, the time of the last update, the previous-day fact and all the
    writer's state as they were, and the error field holds a message
    afterwards.  When the results are available the error field is
    cleared. *)
Theorem failed_fetch_keeps_state W s :
  let s' := after (fetch_poll_data W) s in
  (∃ u, outcome (fetch_poll_data W) s = Val u) ∧
  (tick_results W s = None →
     kept_data s' = kept_data s ∧ truthy (error (current_data s')) = true) ∧
  (∀ r, tick_results W s = Some r →
     error (current_data s') = None ∧
     cd_candidates (current_data s') = map candidate_of (default [] (questionOptionResults r))).
Proof.
  intros s'. split; [apply fetch_poll_data_returns|].
  subst s'. unfold tick_results, fetch_poll_data, after, outcome.
  pose proof (fetch_poll_metadata_keeps_data W s) as K1.
  pose proof (fetch_poll_metadata_returns W s) as [md R1].
  unfold after, outcome in K1, R1.
  destruct (fetch_poll_metadata W s) as [r1 s1] eqn:E1. simpl in K1, R1. subst r1.
  rewrite !(run_bind _ _ _ _ _ E1).
  pose proof (fetch_poll_results_rec_keeps_data W (S (spare_frames W)) s1) as K2.
  pose proof (fetch_poll_results_returns W s1) as [r R2].
  unfold after, outcome, fetch_poll_results in *.
  destruct (fetch_poll_results_rec W (S (spare_frames W)) s1) as [r2 s2] eqn:E2.
  simpl in K2, R2. subst r2. rewrite (run_bind _ _ _ _ _ E2). cbn [fst].
  destruct (usable r) as [j|]; (split; [|intros j' [=]]; try done).
  - subst j'. unfold now_us. rewrite !bind_gets, bind_modify, !bind_gets.
    lazymatch goal with
    | |- context [bind (should_write W ?now) ?k ?s0] =>
        assert (K : keeps current_data (bind (should_write W now) k));
        [|specialize (K s0); unfold after in K; rewrite K; done]
    end.
    pose proof (should_write_keeps_current). pose proof (write_due_keeps_current).
    keeps_tac.
  - intros _. unfold modify. cbn [snd].
    destruct (truthy (error (current_data s2))) eqn:E.
    + split; [congruence|done].
    + split; [rewrite <- K1, <- K2; done|done].
Qed.

(** A tick that succeeds, then a tick in which no request is answered. *)
Lemma failed_fetch_keeps_state_witness :
  let ok := world_at feb25_162930 (expired_before 0 (pair_results 500 300)) no_failure in
  let down := world_at (feb25_162930 + 3 * 10 ^ 6) no_reply no_failure in
  let s := after (fetch_poll_data ok) (initial_state empty_remote None) in
  let s' := after (fetch_poll_data down) s in
  map cand_votes (cd_candidates (current_data s)) = [500; 300] ∧
  kept_data s' = kept_data s ∧
  error (current_data s') = Some failed_message.
Proof.
  intros ok down s s'. split; [by vm_compute|].
  destruct (failed_fetch_keeps_state down s) as (_ & H & _).
  destruct H as [H1 H2]; [by vm_compute|].
  split; [exact H1|by vm_compute].
Defined.

(** ** The write without the tracked pair *)

Section NoPair.

(** A key of the dictionary of tracked votes is a tracked name, and the
    trimmed name of a candidate. *)
Lemma tracked_fold_key cands : ∀ (m : gmap string Z) k,
  is_Some (foldl tracked_step m cands !! k) →
  is_Some (m !! k) ∨ (k ∈ TRACK_NAMES ∧ ∃ c, c ∈ cands ∧ strip (cand_name c) = k).
Proof.
  induction cands as [|c cands IH]; intros m k Hk; simpl in Hk; [by left|].
  apply IH in Hk as [Hk|(Ht & c' & Hc' & Hn)].
  - unfold tracked_step in Hk. case_bool_decide as Hc; [|by left].
    destruct (decide (strip (cand_name c) = k)) as [<-|Hne].
    + right. split; [done|]. exists c. split; [left|done].
    + rewrite lookup_insert_ne in Hk by done. by left.
  - right. split; [done|]. exists c'. split; [by right|done].
Qed.

Lemma tracked_votes_key cands k :
  is_Some (tracked_votes cands !! k) →
  k ∈ TRACK_NAMES ∧ ∃ c, c ∈ cands ∧ strip (cand_name c) = k.
Proof.
  intros Hk. apply (tracked_fold_key cands ∅ k) in Hk as [Hk|Hk]; [|done].
  rewrite lookup_empty in Hk. by destruct Hk.
Qed.

Lemma tracked_votes_small cands :
  ¬ both_tracked_present cands → (size (tracked_votes cands) < 2)%nat.
Proof.
  intros Hno.
  assert (Hdom : ∀ k, k ∈ dom (tracked_votes cands) →
                      k ∈ TRACK_NAMES ∧ ∃ c, c ∈ cands ∧ strip (cand_name c) = k).
  { intros k Hk. apply tracked_votes_key. by apply elem_of_dom. }
  rewrite <- size_dom.
  destruct (decide ("T1 Doran" ∈ dom (tracked_votes cands))) as [Hd|Hd].
  - assert (dom (tracked_votes cands) ⊆ {["T1 Doran"]}) as Hsub.
    { intros k Hk. destruct (Hdom k Hk) as (Ht & c & Hc & Hn).
      unfold TRACK_NAMES in Ht. apply elem_of_cons in Ht as [->|Ht]; [set_solver|].
      apply list_elem_of_singleton in Ht as ->.
      destruct (Hdom _ Hd) as (_ & c1 & Hc1 & Hn1).
      exfalso. apply Hno. by exists c1, c. }
    apply subseteq_size in Hsub. rewrite size_singleton in Hsub. lia.
  - assert (dom (tracked_votes cands) ⊆ {["Hanwha Life Esports Gumayusi"]}) as Hsub.
    { intros k Hk. destruct (Hdom k Hk) as (Ht & _).
      unfold TRACK_NAMES in Ht. apply elem_of_cons in Ht as [->|Ht]; [done|].
      apply list_elem_of_singleton in Ht as ->. set_solver. }
    apply subseteq_size in Hsub. rewrite size_singleton in Hsub. lia.
Qed.

Context (W : World).

Lemma build_row_without_pair s :
  (size (tracked_votes (cd_candidates (current_data s))) < 2)%nat →
  build_row W s = (Val None, s).
Proof.
  intros H. unfold build_row. rewrite !bind_gets.
  case_bool_decide; [|done]. simpl. by case_bool_decide.
Qed.

Lemma write_result_file_without_pair s :
  (size (tracked_votes (cd_candidates (current_data s))) < 2)%nat →
  write_result_file W s = (Val tt, s).
Proof.
  intros H. unfold write_result_file, try_.
  by rewrite (run_bind _ _ _ _ _ (build_row_without_pair s H)).
Qed.

Lemma write_google_sheet_without_pair s :
  (size (tracked_votes (cd_candidates (current_data s))) < 2)%nat →
  write_google_sheet W s = (Val tt, s).
Proof.
  intros H. unfold write_google_sheet, try_.
  by rewrite (run_bind _ _ _ _ _ (build_row_without_pair s H)).
Qed.

End NoPair.

(** C3, as amended.  When the two tracked names are not both among the
    trimmed names of the current candidates, each writer returns without
    touching anything, and the lines of the tick that run when a write is
    due change one thing only: the time of the last write, which becomes
    the time of the tick.  No row reaches the file, the sheet or the
    queue, and the baseline and the remote marker stay as they were. *)
Theorem write_without_tracked_pair W now s :
  ¬ both_tracked_present (cd_candidates (current_data s)) →
  write_result_file W s = (Val tt, s) ∧
  write_google_sheet W s = (Val tt, s) ∧
  write_due W now s = (Val tt, set_last_write_time now s).
Proof.
  intros Hno. apply tracked_votes_small in Hno.
  split; [by apply write_result_file_without_pair|].
  split; [by apply write_google_sheet_without_pair|].
  unfold write_due.
  assert (Hfile : (if negb (IS_VERCEL W) then write_result_file W else ret tt) s = (Val tt, s)).
  { destruct (IS_VERCEL W); [done|]. by apply write_result_file_without_pair. }
  rewrite (run_bind _ _ _ _ _ Hfile).
  rewrite (run_bind _ _ _ _ _ (write_google_sheet_without_pair W s Hno)).
  rewrite bind_modify, bind_gets. simpl.
  case_bool_decide; [lia|done].
Qed.

(** A tick that finds one tracked candidate only, when a write is due. *)
Lemma write_without_tracked_pair_witness :
  let W := world_at feb25_162930 no_reply no_failure in
  let s := tracking_feb24 [candidate "T1 Doran" 500; candidate "T1 Faker" 300] in
  write_result_file W s = (Val tt, s) ∧
  write_google_sheet W s = (Val tt, s) ∧
  write_due W feb25_162930 s = (Val tt, set_last_write_time feb25_162930 s).
Proof.
  apply write_without_tracked_pair.
  intros (c1 & c2 & _ & H2 & _ & Hn). simpl in H2.
  apply elem_of_cons in H2 as [->|H2]; [by vm_compute in Hn|].
  apply list_elem_of_singleton in H2 as ->. by vm_compute in Hn.
Defined.

(** The claim as it stands fails on the throttle state: a tick whose
    results hold one tracked candidate writes no row anywhere, and moves
    the time of the last write from 0 to the time of the tick. *)
Lemma write_without_tracked_pair_counterexample :
  let W := world_at feb25_162930
             (expired_before 0 (results_json [option_of "T1 Doran" 500; option_of "T1 Faker" 300]))
             no_failure in
  let s := initial_state empty_remote None in
  let s' := after (fetch_poll_data W) s in
  size (tracked_votes (cd_candidates (current_data s'))) = 1%nat ∧
  result_xlsx s' = None ∧ queue_of s' = [] ∧ sheet1 (remote s') = [header_cells] ∧
  last_write_snapshot s' = None ∧
  last_write_time s = 0 ∧ last_write_time s' = feb25_162930.
Proof. by vm_compute. Qed.

(** ** The velocity *)

Section Velocity.

Lemma votes_by_name_snoc cands c :
  votes_by_name (cands ++ [c]) = <[cand_name c := cand_votes c]> (votes_by_name cands).
Proof. unfold votes_by_name. by rewrite foldl_app. Qed.

(** The dictionary of the previous snapshot holds, for a name, the votes of
    the last candidate of that name. *)
Lemma votes_by_name_lookup cands name :
  votes_by_name cands !! name = previous_votes name cands.
Proof.
  unfold previous_votes.
  induction cands as [|c cands IH] using rev_ind; [done|].
  rewrite votes_by_name_snoc, filter_app, filter_cons, filter_nil.
  destruct (decide (cand_name c = name)) as [<-|Hne].
  - rewrite lookup_insert_eq. by rewrite last_snoc.
  - rewrite lookup_insert_ne by done. by rewrite app_nil_r.
Qed.

End Velocity.

(** C4, as amended.  With two snapshots at least, the candidate at each
    position of the current list is returned with, as difference, its
    votes less the votes of the last candidate of the same name in the
    snapshot before the last (no difference when the name is new), and
    with, as velocity, that difference divided by the minutes elapsed and
    rounded to one decimal; the minutes elapsed are the seconds between
    the two snapshots divided by 60, or 0.0167 when that is greater.
    Snapshots 60 s apart with votes 1000 and 1100 give 100.0; snapshots
    0.5 s apart with votes 1000 and 1001 give 59.9. *)
Theorem velocity_of_latest_two W s latest previous :
  latest_two (vote_history s) = Some (latest, previous) →
  let minutes :=
    Num.py_max (Num.total_seconds (timestamp latest - timestamp previous) / 60)%float
               0.0167%float in
  (∀ i c, cd_candidates (current_data s) !! i = Some c →
     ∃ e, rs_candidates (current_response W s) !! i = Some e ∧
          en_candidate e = c ∧
          en_diff e = cand_votes c
                      - default (cand_votes c)
                          (previous_votes (cand_name c) (candidates previous)) ∧
          en_velocity e = Num.py_round1 (Num.int_to_float (en_diff e) / minutes)%float) ∧
  (∀ t, Num.velocity (1100 - 1000) (Num.elapsed_minutes (t + 60 * 10 ^ 6) t) = 100%float) ∧
  (∀ t, Num.velocity (1001 - 1000) (Num.elapsed_minutes (t + 500000) t) = 59.9%float).
Proof.
  intros Hh minutes. split; [|split].
  - intros i c Hc. unfold current_response. rewrite Hh.
    cbn [rs_candidates]. rewrite list_lookup_fmap, Hc. cbn [fmap option_fmap option_map].
    eexists. split; [reflexivity|].
    unfold enrich. cbn [en_candidate en_diff en_velocity].
    rewrite votes_by_name_lookup. done.
  - intros t. unfold Num.elapsed_minutes.
    replace (t + 60 * 10 ^ 6 - t) with 60000000 by lia. by vm_compute.
  - intros t. unfold Num.elapsed_minutes.
    replace (t + 500000 - t) with 500000 by lia. by vm_compute.
Qed.

(** Two snapshots half a second apart, 1000 then 1001 votes. *)
Lemma velocity_of_latest_two_witness :
  let W := world_at feb25_162930 no_reply no_failure in
  let s := two_snapshots feb25_162930 (feb25_162930 + 500000) 1000 1001 in
  ∃ e, rs_candidates (current_response W s) !! 0%nat = Some e ∧
       en_diff e = 1 ∧ en_velocity e = 59.9%float.
Proof.
  intros W s.
  destruct (velocity_of_latest_two W s
              {| timestamp := feb25_162930 + 500000;
                 candidates := [candidate "T1 Doran" 1001]; total := 1001 |}
              {| timestamp := feb25_162930;
                 candidates := [candidate "T1 Doran" 1000]; total := 1000 |}
              eq_refl) as (H & _ & _).
  destruct (H 0%nat (candidate "T1 Doran" 1001) eq_refl) as (e & He & _ & Hd & Hv).
  exists e. split; [exact He|]. split; [exact Hd|].
  rewrite Hv, Hd. by vm_compute.
Defined.

(** The claim as it stands fails on its second example: half a second is
    clamped to 0.0167 minute, not to one sixtieth, and 1 / 0.0167 rounds
    to 59.9. *)
Lemma velocity_half_second_counterexample :
  let W := world_at feb25_162930 no_reply no_failure in
  let s := two_snapshots feb25_162930 (feb25_162930 + 500000) 1000 1001 in
  map en_velocity (rs_candidates (current_response W s)) = [59.9%float] ∧
  map en_velocity (rs_candidates (current_response W s)) ≠ [60%float].
Proof.
  split; [by vm_compute|].
  intros H. apply (f_equal (map Prim2SF)) in H. vm_compute in H. discriminate.
Qed.

(** ** One row a minute in the remote sheet *)

Section SameMinute.

Context (W : World) (Hok : ∀ i ev, failure W i ev = None).

Lemma set_trace_same s : set_trace (trace s) s = s.
Proof. by destruct s. Qed.

Lemma sheet_call_ok op s :
  sheet_call W op s = (Val tt, set_trace (trace s ++ [SheetCall op]) s).
Proof. unfold sheet_call, bind, emit. by rewrite Hok. Qed.

Lemma read_cell_ok row col s :
  read_cell W row col s
  = (if (length (sheet1 (remote s)) <? row)%nat
     then Raise (Exn Failure "APIError: [400]: Range exceeds grid limits")
     else Val (cell_value (sheet1 (remote s)) row col),
     set_trace (trace s ++ [SheetCall (ReadCell row col)]) s).
Proof.
  unfold read_cell. rewrite (run_bind _ _ _ _ _ (sheet_call_ok _ s)), bind_gets.
  cbn [remote set_trace]. by destruct (_ <? _)%nat.
Qed.

Lemma append_row_ok r s :
  append_row W r s
  = (Val tt,
     set_gs (set_gsheet_rows (S (gsheet_rows (gs s))) (gs s))
       (set_remote (set_sheet1 (grid_append (sheet1 (remote s)) (row_cells r)) (remote s))
          (set_trace (trace s ++ [SheetCall (AppendRow r)]) s))).
Proof.
  unfold append_row. rewrite (run_bind _ _ _ _ _ (sheet_call_ok _ s)).
  unfold modify_remote, modify_gs. by rewrite bind_modify.
Qed.

(** The check, when the client is connected and no call fails on the side
    of the service. *)
Lemma same_minute_run ts s :
  gsheet_initialized (gs s) = true → gsheet (gs s) = true →
  ∃ t, _gsheet_last_row_same_minute W ts s
       = (Val (row_same_minute (sheet1 (remote s)) (gsheet_rows (gs s)) ts),
          set_trace t s).
Proof.
  intros Hi Hg. unfold _gsheet_last_row_same_minute, row_same_minute, try_.
  rewrite bind_gets, Hi, Hg. cbn [negb orb]. unfold row_count. rewrite bind_gets.
  destruct (gsheet_rows (gs s) <? 2)%nat.
  { exists (trace s). by rewrite set_trace_same. }
  unfold bind at 1. rewrite read_cell_ok.
  destruct (length (sheet1 (remote s)) <? gsheet_rows (gs s))%nat.
  { eexists. reflexivity. }
  eexists. destruct (_ || _); reflexivity.
Qed.

(** What follows the append in a pass raises nothing and leaves the rows,
    the row count and the queue alone. *)
Lemma after_append_run g s :
  ∃ s', after_append W g s = (Val tt, s') ∧ sheet_view s' = sheet_view s.
Proof.
  assert (K : keeps sheet_view (after_append W g)) by (unfold after_append; keeps_tac).
  assert (R : never_raises (after_append W g)).
  { unfold after_append.
    repeat (autounfold with program; cbv beta zeta; first [rewrite Hok|returns_step]). }
  specialize (K s). destruct (R s) as [[] Hr]. unfold after, outcome in *.
  destruct (after_append W g s) as [r s']. simpl in *. subst r. by exists s'.
Qed.

(** A pass over a connected client with a row waiting, when no call
    fails: the row leaves the queue and is appended unless the row at the
    handle's row count is of the same minute. *)
Lemma writer_pass_run s row rest :
  gsheet_initialized (gs s) = true → gsheet (gs s) = true →
  gsheet_queue (gs s) = row :: rest →
  let same := row_same_minute (sheet1 (remote s)) (gsheet_rows (gs s)) (row_ts row) in
  ∃ s', writer_pass W s = (Val tt, s') ∧
        gsheet_initialized (gs s') = true ∧ gsheet (gs s') = true ∧
        gsheet_queue (gs s') = rest ∧
        gsheet_rows (gs s') = (if same then gsheet_rows (gs s) else S (gsheet_rows (gs s))) ∧
        sheet1 (remote s') =
          if same then sheet1 (remote s)
          else grid_append (sheet1 (remote s)) (row_cells row).
Proof.
  intros Hi Hg Hq same. subst same. unfold writer_pass.
  set (s0 := set_gs (set_gsheet_queue rest (gs s)) s).
  destruct (same_minute_run (row_ts row) s0) as [t Hrun]; [done..|].
  change (sheet1 (remote s0)) with (sheet1 (remote s)) in Hrun.
  change (gsheet_rows (gs s0)) with (gsheet_rows (gs s)) in Hrun.
  unfold try_ at 1.
  rewrite bind_gets, Hq, Hi, bind_ret. cbn [negb].
  rewrite bind_gets, Hq. unfold modify_gs at 1. rewrite bind_modify. fold s0.
  rewrite (run_bind _ _ _ _ _ Hrun).
  destruct (row_same_minute (sheet1 (remote s)) (gsheet_rows (gs s)) (row_ts row)).
  { eexists. split; [reflexivity|]. subst s0. simpl. by rewrite Hi, Hg. }
  rewrite (run_bind _ _ _ _ _ (append_row_ok _ _)).
  unfold modify_gs at 1. rewrite bind_modify, bind_gets.
  lazymatch goal with
  | |- context [bind (sheet_call W (BatchFormat (gsheet_row_counter ?g))) ?k ?s1] =>
      destruct (after_append_run g s1) as (s' & Hs' & Hv);
      change (bind (sheet_call W (BatchFormat (gsheet_row_counter g))) k)
        with (after_append W g)
  end.
  rewrite Hs'. exists s'. split; [done|].
  unfold sheet_view in Hv. simpl in Hv.
  injection Hv as -> -> -> -> ->. subst s0. simpl. by rewrite Hi, Hg.
Qed.

Lemma grid_append_full g cells :
  used_rows g = length g → grid_append g cells = g ++ [cells].
Proof.
  intros H. unfold grid_append. rewrite H.
  rewrite take_ge, drop_ge by (simpl; lia). done.
Qed.

Lemma cell_value_appended g ts cells :
  ts ≠ "" → cell_value (g ++ [ts :: cells]) (length (g ++ [ts :: cells])) 1 = Some ts.
Proof.
  intros Hts. unfold cell_value. rewrite length_app. simpl.
  replace (length g + 1 - 1)%nat with (length g) by lia.
  rewrite list_lookup_middle by done. simpl. by destruct ts.
Qed.

Lemma nonempty_true s : s ≠ "" → nonempty s = true.
Proof. by destruct s. Qed.

Lemma nonempty_true_inv s : nonempty s = true → s ≠ "".
Proof. by destruct s. Qed.

(** A label of the minute of a label the check answers true for gets the
    same answer. *)
Lemma last_row_same_minute_again g ts1 ts2 :
  last_row_same_minute g ts1 = true → ts2 ≠ "" →
  minute_key ts1 = minute_key ts2 → last_row_same_minute g ts2 = true.
Proof.
  unfold last_row_same_minute, row_same_minute. intros H Hts Hk.
  destruct (length g <? 2)%nat; [done|].
  destruct (length g <? length g)%nat; [done|].
  rewrite (nonempty_true ts2) by done.
  destruct (nonempty (strip _)); [|done].
  destruct (nonempty ts1); [|done]. cbn [negb orb] in *. by rewrite <- Hk.
Qed.

(** After a row is appended to a grid that ends at its last used row, the
    check answers true for any label of the row's minute. *)
Lemma last_row_same_minute_appended g r ts2 :
  g ≠ [] → row_ts r ≠ "" → strip (row_ts r) = row_ts r → ts2 ≠ "" →
  minute_key (row_ts r) = minute_key ts2 →
  last_row_same_minute (g ++ [row_cells r]) ts2 = true.
Proof.
  intros Hg Hts Hstrip Hts2 Hk. unfold last_row_same_minute, row_same_minute.
  destruct (Nat.ltb_spec (length (g ++ [row_cells r])) 2) as [Hlt|_].
  { rewrite length_app in Hlt. destruct g; [done|]. simpl in Hlt. lia. }
  rewrite Nat.ltb_irrefl.
  unfold row_cells. rewrite cell_value_appended by done.
  change (default "" (Some (row_ts r))) with (row_ts r).
  rewrite Hstrip, !nonempty_true by done. cbn [negb orb].
  rewrite Hk. apply String.eqb_refl.
Qed.

End SameMinute.

(** Where the check does work: on a grid that ends at its last used row,
    with a handle whose row count is the size of that grid, two rows of one
    minute leave the queue in two passes and one of them at most is
    appended. *)
Lemma same_minute_rows_in_two_passes W s r1 r2 rest :
  (∀ i ev, failure W i ev = None) →
  gsheet_initialized (gs s) = true → gsheet (gs s) = true →
  gsheet_queue (gs s) = r1 :: r2 :: rest →
  sheet1 (remote s) ≠ [] →
  gsheet_rows (gs s) = length (sheet1 (remote s)) →
  used_rows (sheet1 (remote s)) = length (sheet1 (remote s)) →
  row_ts r1 ≠ "" → strip (row_ts r1) = row_ts r1 → row_ts r2 ≠ "" →
  minute_key (row_ts r1) = minute_key (row_ts r2) →
  let g := sheet1 (remote s) in
  let s2 := after (_gsheet_writer_thread W 2) s in
  gsheet_queue (gs s2) = rest ∧
  sheet1 (remote s2)
  = if last_row_same_minute g (row_ts r1) then g else g ++ [row_cells r1].
Proof.
  intros Hok Hi Hg Hq Hne Hrows Hfull Hts1 Hstrip Hts2 Hk g s2. subst s2.
  destruct (writer_pass_run W Hok s r1 (r2 :: rest) Hi Hg Hq)
    as (s1 & Hrun1 & Hi1 & Hg1 & Hq1 & Hrows1 & Hsheet1).
  destruct (writer_pass_run W Hok s1 r2 rest Hi1 Hg1 Hq1)
    as (s2 & Hrun2 & _ & _ & Hq2 & _ & Hsheet2).
  unfold after. cbn [_gsheet_writer_thread].
  rewrite (run_bind _ _ _ _ _ Hrun1), (run_bind _ _ _ _ _ Hrun2). cbn [snd ret].
  split; [done|]. rewrite Hsheet2, Hrows1, Hsheet1, Hrows. fold g.
  change (row_same_minute g (length g) (row_ts r1))
    with (last_row_same_minute g (row_ts r1)).
  destruct (last_row_same_minute g (row_ts r1)) eqn:E1.
  - change (row_same_minute g (length g) (row_ts r2))
      with (last_row_same_minute g (row_ts r2)).
    by rewrite (last_row_same_minute_again g (row_ts r1) (row_ts r2)).
  - rewrite grid_append_full by done.
    replace (S (length g)) with (length (g ++ [row_cells r1]))
      by (rewrite length_app; simpl; lia).
    change (row_same_minute ?x (length ?x) ?t) with (last_row_same_minute x t).
    by rewrite last_row_same_minute_appended.
Qed.

(** C5, at the failing input: a sheet of 1000 rows, as the service makes
    them, and no call failing.  The check reads the first cell of the row
    at the handle's row count, the end of the grid, not the last row that
    holds data; that cell is blank (or past the grid, once a row has been
    appended), so the check answers false.  With the header alone in the
    sheet, the rows of 16:29:30 and 16:29:45 are both appended; with the
    row of 16:29:30 already the last data row, the check answers false
    for the label of 16:29:45 and that row is appended under it. *)
Theorem same_minute_rows_both_appended :
  let W := world_at feb25_162930 no_reply no_failure in
  let s2 := after (_gsheet_writer_thread W 2)
                  (connected_to 1000 [] [row_162930; row_162945]) in
  let s := connected_to 1000 [row_cells row_162930] [row_162945] in
  minute_key (row_ts row_162930) = minute_key (row_ts row_162945) ∧
  trace s2 = [SheetCall (ReadCell 1000 1);
              SheetCall (AppendRow row_162930); SheetCall (BatchFormat 2);
              SheetCall (UpdateThrottle "1772011770");
              SheetCall (ReadCell 1001 1);
              SheetCall (AppendRow row_162945); SheetCall (BatchFormat 3);
              SheetCall (UpdateThrottle "1772011770")] ∧
  take 3 (sheet1 (remote s2)) = [header_cells; row_cells row_162930; row_cells row_162945] ∧
  used_rows (sheet1 (remote s2)) = 3%nat ∧
  used_rows (sheet1 (remote s)) = 2%nat ∧
  outcome (_gsheet_last_row_same_minute W (row_ts row_162945)) s = Val false ∧
  take 3 (sheet1 (remote (after (writer_pass W) s)))
  = [header_cells; row_cells row_162930; row_cells row_162945].
Proof. by vm_compute. Qed.

(** The check also fails open: when the read of the last row fails, it
    answers false, and the second row of the minute is appended after the
    first, here in a sheet without blank rows. *)
Lemma same_minute_check_fails_open :
  let W := world_at feb25_162930 no_reply (fails_at 3 read_limited) in
  let s2 := after (_gsheet_writer_thread W 2) (connected [] [row_162930; row_162945]) in
  minute_key (row_ts row_162930) = minute_key (row_ts row_162945) ∧
  trace s2 = [SheetCall (AppendRow row_162930); SheetCall (BatchFormat 2);
              SheetCall (UpdateThrottle "1772011770");
              SheetCall (ReadCell 2 1);
              SheetCall (AppendRow row_162945); SheetCall (BatchFormat 3);
              SheetCall (UpdateThrottle "1772011770")] ∧
  sheet1 (remote s2) = [header_cells; row_cells row_162930; row_cells row_162945].
Proof. by vm_compute. Qed.
